(** * hivemind DHT: request protocol and node orchestration

    A shallow embedding of [hivemind/dht/protocol.py] (class
    [KademliaProtocol]) and of [hivemind/dht/node.py] (class [DHTNode]),
    together with the properties of the four RPC pairs, of bootstrap
    and of bucket refresh.

    Python values are dynamically typed, so the embedding keeps one
    type [value] of run-time values and one type [exn] of exceptions;
    a method of the protocol is a computation in a state-and-exception
    monad over the protocol object and the log of the calls it makes on
    its collaborators (routing table, node, transport). *)

From Stdlib Require Import List String Ascii Bool NArith ZArith Lia.
Import ListNotations.
Open Scope string_scope.

(** ** Python run-time values *)

Module Py.

(** The exceptions the modelled code can raise. *)
Inductive exn : Type :=
| AttributeError (name : string)
| TypeError (msg : string)
| ValueError (msg : string)
| KeyError
| NotImplementedError (msg : string)
| SyntaxError (msg : string).

Inductive result (A : Type) : Type :=
| Ok (a : A)
| Raise (e : exn).
Arguments Ok {A} a.
Arguments Raise {A} e.

Definition is_ok {A} (r : result A) : bool :=
  match r with Ok _ => true | Raise _ => false end.

End Py.
Import Py.

(** Identifiers are unsigned integers, endpoints are (host, port) pairs,
    stored values are opaque bytes and expiration times are readings of
    the monotonic clock (kept on an integer scale). *)
Definition DHTID := N.
Definition Hostname := string.
Definition Port := N.
Definition Endpoint := (Hostname * Port)%type.
Definition DHTValue := string.
Definition DHTExpirationTime := Z.

(** Distance between two identifiers: their bitwise XOR. *)
Definition xor_distance (a b : DHTID) : N := N.lxor a b.

#[warnings="-register-all"]
Inductive value : Type :=
| VNone
| VBool (b : bool)
| VInt (z : Z)
| VId (i : DHTID)
| VBytes (s : DHTValue)
| VStr (s : string)
| VTime (t : DHTExpirationTime)
| VEndpoint (e : Endpoint)
| VTuple (items : list value)
| VList (items : list value)
| VObject (name : string)
    (* an object held in an attribute: the node, the routing table, a bound method *)
| VStub (rpc : string).
    (* the closure RPCProtocol hands out for a remote procedure *)

(** Iterating over a str gives its characters, each a str of length 1. *)
Fixpoint characters (s : string) : list value :=
  match s with
  | EmptyString => []
  | String c rest => VStr (String c EmptyString) :: characters rest
  end.

(** Iterating over bytes gives the integer of each byte. *)
Fixpoint byte_values (s : string) : list value :=
  match s with
  | EmptyString => []
  | String c rest => VInt (Z.of_nat (nat_of_ascii c)) :: byte_values rest
  end.

(** [tuple(v)]: the items of an iterable. Tuples, lists, str and bytes
    are iterable, and so is an endpoint, which is the tuple
    (host, port); None, numbers, identifiers, other objects and
    closures are not. *)
Definition to_tuple (v : value) : result (list value) :=
  match v with
  | VTuple items | VList items => Ok items
  | VStr s => Ok (characters s)
  | VBytes s => Ok (byte_values s)
  | VEndpoint (host, port) => Ok [VStr host; VInt (Z.of_N port)]
  | _ => Raise (TypeError "object is not iterable")
  end.

(** [a, b = v]: unpacking an iterable into exactly two targets. *)
Definition unpack2 (v : value) : result (value * value) :=
  match to_tuple v with
  | Ok [a; b] => Ok (a, b)
  | Ok _ => Raise (ValueError "wrong number of values to unpack")
  | Raise _ => Raise (TypeError "cannot unpack non-iterable object")
  end.

(** [a, b, c, d = v]. *)
Definition unpack4 (v : value) : result (value * value * value * value) :=
  match to_tuple v with
  | Ok [a; b; c; d] => Ok (a, b, c, d)
  | Ok _ => Raise (ValueError "wrong number of values to unpack")
  | Raise _ => Raise (TypeError "cannot unpack non-iterable object")
  end.

(** ** Collaborators of the protocol

    [routing.py] is not among the sources. The protocol only uses the
    routing table through the members below, so the handlers are
    embedded over any type that provides them. *)

(** Modelled from the spec: the bucket class of [routing.py] is missing;
    a bucket covers the half-open range [lower, upper), holds its peers
    ordered by recency of contact (most recently seen last) together
    with the candidates waiting to replace one of them, and carries the
    time of its last update. [DHTNode.refresh_stale_buckets] reads
    [lower], [upper] and [last_updated]. *)
Record KBucket : Type := {
  lower : DHTID;
  upper : DHTID;
  nodes_to_endpoint : list (DHTID * Endpoint);
  replacement_nodes : list (DHTID * Endpoint);
  last_updated : Z
}.

Class RoutingTableOps (RT : Type) : Type := {
  (* routing_table.register_request_from(sender, sender_id) *)
  register_request_from : RT -> Endpoint -> DHTID -> RT;
  (* routing_table.register_request_to(recipient, recipient_node_id, responded=...) *)
  register_request_to : RT -> Endpoint -> value -> bool -> RT;
  (* key_node in routing_table *)
  contains : RT -> DHTID -> bool;
  (* routing_table[node_id]; None stands for KeyError *)
  getitem : RT -> DHTID -> option Endpoint;
  (* routing_table.get_nearest_neighbors(key_node, k=..., exclude=...) *)
  get_nearest_neighbors : RT -> DHTID -> nat -> option DHTID -> list DHTID;
  (* routing_table.buckets *)
  buckets : RT -> list KBucket
}.

(** The object stored in [KademliaProtocol.node], with the three members
    the handlers use: [node.id], [node.store(key, value, expiration_time)]
    and [node.get(key)]. The class [DHTNode] of [node.py] does not
    provide them yet (it has no [id] and no [store], and its [get] is
    the unimplemented network lookup), so the handlers are embedded
    against the interface they call. *)
Class NodeOps (Node : Type) : Type := {
  id : Node -> DHTID;
  store : Node -> DHTID -> DHTValue -> DHTExpirationTime -> Node * bool;
  get : Node -> DHTID -> value
}.

(** ** RPCProtocol

    [KademliaProtocol] extends [rpcudp.protocol.RPCProtocol]. The class
    defines no method [ping], [store], [find_node] or [find_value]: the
    callers' [self.ping(...)], [self.store(...)] and so on reach
    [RPCProtocol.__getattr__], which Python consults when the instance
    and its class have no attribute of that name. For a name that starts
    with [_] or [rpc_] it raises AttributeError; for any other name it
    returns a closure. Called with an address and arguments, the closure
    sends the request [rpc_<name>], then arms the timeout with
    [self._wait_timeout], and hands out a future that resolves to
    [(responded, payload)], [(False, None)] after the timeout.
    [_wait_timeout] is set by [RPCProtocol.__init__] and by nothing
    else. *)
Definition RPCProtocol_getattr (name : string) : result value :=
  if (String.prefix "_" name || String.prefix "rpc_" name)%bool
  then Raise (AttributeError name)
  else Ok (VStub name).

(** Names bound in the body of [class KademliaProtocol]. *)
Definition KademliaProtocol_methods : list string :=
  ["__init__"; "rpc_ping"; "call_ping"; "rpc_store"; "call_store";
   "rpc_find_node"; "call_find_node"; "rpc_find_value"; "call_find_value"].

(** What the calls of one method invocation on collaborators look like. *)
Inductive event : Type :=
| EvRegisterFrom (sender : Endpoint) (sender_id : DHTID)
| EvRegisterTo (recipient : Endpoint) (recipient_node_id : value) (responded : bool)
| EvSend (rpc : string) (recipient : Endpoint) (args : list value)
| EvNodeStore (key : DHTID) (v : DHTValue) (expiration_time : DHTExpirationTime)
| EvNodeGet (key : DHTID).

Definition is_register_to (e : event) : bool :=
  match e with EvRegisterTo _ _ _ => true | _ => false end.

Section Protocol.

Context {RT Node : Type} {RTO : RoutingTableOps RT} {NO : NodeOps Node}.

(** The transport: what a peer answers to a request, [None] when no
    answer arrives within the timeout. *)
Variable net : string -> Endpoint -> list value -> option value.

(** Instance attributes: the four that [__init__] sets, and
    [_wait_timeout], which is there only on an instance on which
    [RPCProtocol.__init__] has been run. *)
Record KademliaProtocol : Type := {
  node : Node;
  bucket_size : nat;
  num_neighbors : nat;
  routing_table : RT;
  _wait_timeout : option Z
}.

(** [KademliaProtocol.__init__]: it sets its four attributes and does
    not call [RPCProtocol.__init__]. The constructor of the routing
    table, of [routing.py], is taken as [RoutingTable]. *)
Definition KademliaProtocol_init (RoutingTable : Node -> nat -> nat -> value -> RT)
    (node : Node) (bucket_size modulo num_neighbors : nat) (staleness_timeout : value)
    : KademliaProtocol :=
  {| node := node; bucket_size := bucket_size; num_neighbors := num_neighbors;
     routing_table := RoutingTable node bucket_size modulo staleness_timeout;
     _wait_timeout := None |}.

(** [self.<name>]: instance attributes first, then the class, then
    [RPCProtocol.__getattr__]. *)
Definition getattr (self : KademliaProtocol) (name : string) : result value :=
  if name =? "node" then Ok (VObject "node")
  else if name =? "bucket_size" then Ok (VInt (Z.of_nat (bucket_size self)))
  else if name =? "num_neighbors" then Ok (VInt (Z.of_nat (num_neighbors self)))
  else if name =? "routing_table" then Ok (VObject "routing_table")
  else if name =? "_wait_timeout" then
    match _wait_timeout self with
    | Some seconds => Ok (VInt seconds)
    | None => RPCProtocol_getattr name
    end
  else if existsb (String.eqb name) KademliaProtocol_methods then Ok (VObject name)
  else RPCProtocol_getattr name.

(** The protocol object and the calls made so far, oldest first. *)
Record world : Type := {
  self : KademliaProtocol;
  log : list event
}.

Definition M (A : Type) : Type := world -> world * result A.

Definition ret {A} (a : A) : M A := fun w => (w, Ok a).

Definition raise {A} (e : exn) : M A := fun w => (w, Raise e).

Definition bind {A B} (m : M A) (k : A -> M B) : M B :=
  fun w => match m w with
           | (w', Ok a) => k a w'
           | (w', Raise e) => (w', Raise e)
           end.

Definition lift {A} (r : result A) : M A := fun w => (w, r).

Notation "x <- m ;; k" := (bind m (fun x => k))
  (at level 100, m at next level, right associativity).
Notation "' p <- m ;; k" := (bind m (fun x => let p := x in k))
  (at level 100, p pattern, m at next level, right associativity).
Notation "m ;;; k" := (bind m (fun _ => k))
  (at level 100, right associativity).

Definition record (e : event) (w : world) : world :=
  {| self := self w; log := log w ++ [e] |}.

Definition with_routing_table (rt : RT) (w : world) : world :=
  {| self := {| node := node (self w); bucket_size := bucket_size (self w);
                num_neighbors := num_neighbors (self w); routing_table := rt;
                _wait_timeout := _wait_timeout (self w) |};
     log := log w |}.

Definition with_node (n : Node) (w : world) : world :=
  {| self := {| node := n; bucket_size := bucket_size (self w);
                num_neighbors := num_neighbors (self w);
                routing_table := routing_table (self w);
                _wait_timeout := _wait_timeout (self w) |};
     log := log w |}.

(** [self.routing_table.register_request_from(sender, sender_id)] *)
Definition table_register_request_from (sender : Endpoint) (sender_id : DHTID) : M unit :=
  fun w =>
    (record (EvRegisterFrom sender sender_id)
       (with_routing_table
          (register_request_from (routing_table (self w)) sender sender_id) w),
     Ok tt).

(** [self.routing_table.register_request_to(recipient, recipient_node_id, responded=responded)] *)
Definition table_register_request_to (recipient : Endpoint) (recipient_node_id : value)
    (responded : bool) : M unit :=
  fun w =>
    (record (EvRegisterTo recipient recipient_node_id responded)
       (with_routing_table
          (register_request_to (routing_table (self w)) recipient recipient_node_id responded) w),
     Ok tt).

(** [key_node in self.routing_table] *)
Definition table_contains (key_node : DHTID) : M bool :=
  fun w => (w, Ok (contains (routing_table (self w)) key_node)).

(** [self.routing_table[node_id]] *)
Definition table_getitem (node_id : DHTID) : M Endpoint :=
  fun w => (w, match getitem (routing_table (self w)) node_id with
               | Some endpoint => Ok endpoint
               | None => Raise KeyError
               end).

(** [self.routing_table.get_nearest_neighbors(key_node, k=k, exclude=exclude)] *)
Definition table_get_nearest_neighbors (key_node : DHTID) (k : nat) (exclude : DHTID)
    : M (list DHTID) :=
  fun w => (w, Ok (get_nearest_neighbors (routing_table (self w)) key_node k (Some exclude))).

(** [self.num_neighbors] *)
Definition self_num_neighbors : M nat :=
  fun w => (w, Ok (num_neighbors (self w))).

(** [self.node.id] *)
Definition self_node_id : M DHTID :=
  fun w => (w, Ok (id (node (self w)))).

(** [self.node.store(key, value, expiration_time)] *)
Definition self_node_store (key : DHTID) (v : DHTValue) (expiration_time : DHTExpirationTime)
    : M bool :=
  fun w =>
    let (n, accepted) := store (node (self w)) key v expiration_time in
    (record (EvNodeStore key v expiration_time) (with_node n w), Ok accepted).

(** [self.node.get(key)] *)
Definition self_node_get (key : DHTID) : M value :=
  fun w => (record (EvNodeGet key) w, Ok (get (node (self w)) key)).

(** [self.<name>] for a name read off the protocol object itself. *)
Definition self_attr (name : string) : M value :=
  fun w => (w, getattr (self w) name).

(** [await self.<name>(recipient, *args)]: the attribute must be one of
    RPCProtocol's closures. The closure sends the request over the
    transport that the listening protocol is connected to, then reads
    [self._wait_timeout] to arm the timeout, which raises AttributeError
    on an instance without it; awaiting the future yields
    [(responded, payload)]. *)
Definition await_remote (name : string) (recipient : Endpoint) (args : list value)
    : M (bool * value) :=
  f <- self_attr name ;;
  match f with
  | VStub rpc =>
      (fun w => (record (EvSend rpc recipient args) w, Ok tt)) ;;;
      seconds <- self_attr "_wait_timeout" ;;
      fun w => (w, Ok (match net rpc recipient args with
                       | Some payload => (true, payload)
                       | None => (false, VNone)
                       end))
  | _ => raise (TypeError "object is not callable")
  end.

(** [for x in xs: f(x)], collecting the results. *)
Fixpoint for_each {A B} (f : A -> M B) (xs : list A) : M (list B) :=
  match xs with
  | [] => ret []
  | x :: rest => y <- f x ;; ys <- for_each f rest ;; ret (y :: ys)
  end.

(** *** The four handlers and the four callers

    call_ping and call_store are coroutines ([async def]): they suspend
    at [await] until the reply or the timeout is there and then go on,
    which is sequencing in [M]. call_find_node and call_find_value are
    written with a plain [def] around an [await]; Python refuses such a
    function ('await' outside async function), so no call of either
    gets as far as its first statement. *)

Definition rpc_ping (sender : Endpoint) (sender_id : DHTID) : M value :=
  table_register_request_from sender sender_id ;;;
  own <- self_node_id ;;
  ret (VId own).

Definition call_ping (recipient : Endpoint) : M value :=
  own <- self_node_id ;;
  '(responded, recipient_node_id) <- await_remote "ping" recipient [VId own] ;;
  table_register_request_to recipient recipient_node_id responded ;;;
  ret recipient_node_id.

Definition rpc_store (sender : Endpoint) (sender_id : DHTID)
    (key : DHTID) (v : DHTValue) (expiration_time : DHTExpirationTime) : M value :=
  table_register_request_from sender sender_id ;;;
  store_accepted <- self_node_store key v expiration_time ;;
  own <- self_node_id ;;
  ret (VTuple [VBool store_accepted; VId own]).

Definition call_store (recipient : Endpoint) (key : DHTID) (v : DHTValue)
    (expiration_time : DHTExpirationTime) : M value :=
  own <- self_node_id ;;
  '(responded, response) <-
     await_remote "store" recipient [VId own; VId key; VBytes v; VTime expiration_time] ;;
  '(status, recipient_node_id) <-
     lift (if responded : bool then unpack2 response else Ok (VBool false, VNone)) ;;
  table_register_request_to recipient recipient_node_id responded ;;;
  ret (if responded : bool then response else VBool false).

Definition rpc_find_node (sender : Endpoint) (sender_id : DHTID) (key_node : DHTID) : M value :=
  table_register_request_from sender sender_id ;;;
  known <- table_contains key_node ;;
  if known : bool then
    endpoint <- table_getitem key_node ;;
    own <- self_node_id ;;
    ret (VTuple [VList [VTuple [VId key_node; VEndpoint endpoint]]; VId own])
  else
    k <- self_num_neighbors ;;
    neighbor_ids <- table_get_nearest_neighbors key_node k sender_id ;;
    neighbors <- for_each (fun neighbor_id =>
                   endpoint <- table_getitem neighbor_id ;;
                   ret (VTuple [VId neighbor_id; VEndpoint endpoint])) neighbor_ids ;;
    own <- self_attr "node_id" ;;
    ret (VTuple [VList neighbors; own]).

(** [def call_find_node]: the body awaits [self.find_node(...)], takes
    [([], None)] for the reply when nobody responded, registers the
    recipient and returns the neighbours; being a plain [def], it is
    refused before any of this can run. *)
Definition call_find_node (recipient : Endpoint) (key_node : DHTID) : M value :=
  raise (SyntaxError "'await' outside async function").

Definition rpc_find_value (sender : Endpoint) (sender_id : DHTID) (key : DHTID) : M value :=
  found <- self_node_get key ;;
  found_items <- lift (to_tuple found) ;;
  nodes <- rpc_find_node sender sender_id key ;;
  match nodes with
  | VTuple node_items => ret (VTuple (found_items ++ node_items))
  | _ => raise (TypeError "can only concatenate tuple to tuple")
  end.

(** [def call_find_value]: the body awaits [self.find_value(...)],
    takes [(None, None, [], None)] for the reply when nobody responded,
    registers the recipient and returns the first three components;
    being a plain [def], it is refused before any of this can run. *)
Definition call_find_value (recipient : Endpoint) (key : DHTID) : M value :=
  raise (SyntaxError "'await' outside async function").

(** The world in which rpc_find_node makes its choice: the sender has
    been recorded. *)
Definition recorded (sender : Endpoint) (sender_id : DHTID) (w : world) : world :=
  record (EvRegisterFrom sender sender_id)
    (with_routing_table
       (register_request_from (routing_table (self w)) sender sender_id) w).

(** The pairs [(neighbor_id, routing_table[neighbor_id])] for a list of
    identifiers; [None] when one of them has no entry (KeyError). *)
Fixpoint neighbor_entries (rt : RT) (ids : list DHTID) : option (list value) :=
  match ids with
  | [] => Some []
  | i :: rest =>
      match getitem rt i, neighbor_entries rt rest with
      | Some endpoint, Some entries => Some (VTuple [VId i; VEndpoint endpoint] :: entries)
      | _, _ => None
      end
  end.

(** *** One description for the four callers *)

Inductive client_call : Type :=
| Ping (recipient : Endpoint)
| Store (recipient : Endpoint) (key : DHTID) (v : DHTValue)
        (expiration_time : DHTExpirationTime)
| FindNode (recipient : Endpoint) (key_node : DHTID)
| FindValue (recipient : Endpoint) (key : DHTID).

Definition issue (c : client_call) : M value :=
  match c with
  | Ping recipient => call_ping recipient
  | Store recipient key v expiration_time => call_store recipient key v expiration_time
  | FindNode recipient key_node => call_find_node recipient key_node
  | FindValue recipient key => call_find_value recipient key
  end.

Definition recipient_of (c : client_call) : Endpoint :=
  match c with
  | Ping r | Store r _ _ _ | FindNode r _ | FindValue r _ => r
  end.

(** The request a caller puts on the wire for a node whose id is [own]. *)
Definition rpc_of (c : client_call) : string :=
  match c with
  | Ping _ => "ping"
  | Store _ _ _ _ => "store"
  | FindNode _ _ => "find_node"
  | FindValue _ _ => "find_value"
  end.

Definition args_of (own : DHTID) (c : client_call) : list value :=
  match c with
  | Ping _ => [VId own]
  | Store _ key v expiration_time => [VId own; VId key; VBytes v; VTime expiration_time]
  | FindNode _ key_node => [VId own; VId key_node]
  | FindValue _ key => [VId own; VId key]
  end.

(** A reply has the arity of the handler's result: one value for ping,
    a pair for store and find_node, four values for find_value. *)
Definition reply_fits (c : client_call) (payload : value) : bool :=
  match c with
  | Ping _ => true
  | Store _ _ _ _ | FindNode _ _ => is_ok (unpack2 payload)
  | FindValue _ _ => is_ok (unpack4 payload)
  end.

End Protocol.

Arguments KademliaProtocol : clear implicits.
Arguments world : clear implicits.
Arguments M : clear implicits.

(** ** The node orchestrator ([node.py])

    [DHTNode.__init__] and [DHTNode.refresh_stale_buckets] talk to the
    event loop, to the clock and to the lookup of [search.py]. Their
    answers are taken from an environment; the calls are logged in the
    order in which they are made. *)

(** A ping task: [self.protocol.call_ping(peer)] scheduled on the loop. *)
Inductive task : Type :=
| PingTask (peer : Endpoint).

(** [return_when] of [asyncio.wait]; ALL_COMPLETED is its default. *)
Inductive return_when : Type :=
| FIRST_COMPLETED
| ALL_COMPLETED.

Inductive node_event : Type :=
| NListen (interface : Hostname) (port : Port)
| NMonotonic (t : Z)
| NWait (tasks : list task) (timeout : Z) (when : return_when)
| NCancel (t : task)
| NWarn (msg : string)
| NFindNearestNodes (query_id : DHTID)
| NBeamSearch (query_id : DHTID) (initial_peers : list (DHTID * Endpoint)) (k_nearest : option nat).

Definition is_lookup (e : node_event) : bool :=
  match e with NFindNearestNodes _ | NBeamSearch _ _ _ => true | _ => false end.

Definition is_wait (e : node_event) : bool :=
  match e with NWait _ _ _ => true | _ => false end.

Definition is_cancel (e : node_event) : bool :=
  match e with NCancel _ => true | _ => false end.

Record Env : Type := {
  (* DHTID.generate() *)
  DHTID_generate : DHTID;
  (* find_open_port() *)
  find_open_port : Port;
  (* the n-th reading of time.monotonic() *)
  monotonic : nat -> Z;
  (* the outcome (done, pending) of the n-th asyncio.wait *)
  asyncio_wait : nat -> list task -> Z -> return_when -> result (list task * list task);
  (* task.result() of a finished ping: the peer's id, or None *)
  task_result : task -> value;
  (* self.protocol.routing_table.get_nearest_neighbors(), without arguments *)
  nearest_to_nothing : result (list (DHTID * Endpoint));
  (* what awaiting beam_search(protocol, query_id, initial_peers, k_nearest) ends with *)
  beam_search : DHTID -> list (DHTID * Endpoint) -> option nat -> result unit
}.

Record DHTNode : Type := {
  node_id : DHTID;
  port : Port;
  num_replicas : nat;
  staleness_timeout : option Z
}.

(** Bookkeeping of a run: how often the clock and [asyncio.wait] were
    used, and the calls made so far, oldest first. *)
Record run_state : Type := {
  clock_reads : nat;
  waits : nat;
  events : list node_event
}.

Definition start : run_state := {| clock_reads := 0; waits := 0; events := [] |}.

Section Node.

Context {RT : Type} {RTO : RoutingTableOps RT}.

Variable env : Env.

Definition N_ (A : Type) : Type := run_state -> run_state * result A.

Definition nret {A} (a : A) : N_ A := fun s => (s, Ok a).

Definition nraise {A} (e : exn) : N_ A := fun s => (s, Raise e).

Definition nbind {A B} (m : N_ A) (k : A -> N_ B) : N_ B :=
  fun s => match m s with
           | (s', Ok a) => k a s'
           | (s', Raise e) => (s', Raise e)
           end.

Notation "x <- m ;; k" := (nbind m (fun x => k))
  (at level 100, m at next level, right associativity).
Notation "' p <- m ;; k" := (nbind m (fun x => let p := x in k))
  (at level 100, p pattern, m at next level, right associativity).
Notation "m ;;; k" := (nbind m (fun _ => k))
  (at level 100, right associativity).

Definition emit (e : node_event) : N_ unit :=
  fun s => ({| clock_reads := clock_reads s; waits := waits s; events := events s ++ [e] |},
            Ok tt).

(** [time.monotonic()] *)
Definition time_monotonic : N_ Z :=
  fun s =>
    let t := monotonic env (clock_reads s) in
    ({| clock_reads := S (clock_reads s); waits := waits s;
        events := events s ++ [NMonotonic t] |}, Ok t).

(** [loop.run_until_complete(asyncio.wait(tasks, timeout=timeout, return_when=when))] *)
Definition run_wait (tasks : list task) (timeout : Z) (when : return_when)
    : N_ (list task * list task) :=
  fun s =>
    ({| clock_reads := clock_reads s; waits := S (waits s);
        events := events s ++ [NWait tasks timeout when] |},
     asyncio_wait env (waits s) tasks timeout when).

(** [for x in xs: f(x)] *)
Fixpoint nfor {A} (f : A -> N_ unit) (xs : list A) : N_ unit :=
  match xs with
  | [] => nret tt
  | x :: rest => f x ;;; nfor f rest
  end.

(** [for x in xs: f(x)], collecting the results. *)
Fixpoint ncollect {A B} (f : A -> N_ B) (xs : list A) : N_ (list B) :=
  match xs with
  | [] => nret []
  | x :: rest => y <- f x ;; ys <- ncollect f rest ;; nret (y :: ys)
  end.

Definition is_none (v : value) : bool :=
  match v with VNone => true | _ => false end.

(** [DHTNode.find_nearest_nodes], run to completion: it seeds
    [beam_search] of [search.py], which is not among the sources, with
    what the routing table returns. *)
Definition find_nearest_nodes (query_id : DHTID) (k_nearest : option nat) : N_ unit :=
  emit (NFindNearestNodes query_id) ;;;
  initial_peers <- (fun s => (s, nearest_to_nothing env)) ;;
  emit (NBeamSearch query_id initial_peers k_nearest) ;;;
  fun s => (s, beam_search env query_id initial_peers k_nearest).

(** [DHTNode.__init__]; the result is the constructed node. *)
Definition DHTNode_init (node_id_arg : option DHTID) (port_arg : option Port)
    (initial_peers : list Endpoint) (bucket_size : nat) (num_replicas_arg : option nat)
    (depth_modulo : nat) (wait_timeout : Z) (staleness_timeout_arg : option Z)
    (bootstrap_timeout_arg : option Z) (interface : Hostname) : N_ DHTNode :=
  let node_id := match node_id_arg with Some i => i | None => DHTID_generate env end in
  let port := match port_arg with Some p => p | None => find_open_port env end in
  let self := {| node_id := node_id; port := port;
                 num_replicas := match num_replicas_arg with Some r => r | None => bucket_size end;
                 staleness_timeout := staleness_timeout_arg |} in
  (* create kademlia protocol and make it listen to a port *)
  emit (NListen interface port) ;;;
  (* bootstrap part 1: ping initial_peers *)
  let bootstrap_timeout :=
    match bootstrap_timeout_arg with Some t => t | None => wait_timeout end in
  began_bootstrap_time <- time_monotonic ;;
  let ping_tasks := map PingTask initial_peers in
  '(first_finished, remaining_tasks) <- run_wait ping_tasks wait_timeout FIRST_COMPLETED ;;
  now <- time_monotonic ;;
  let time_to_first_response := (now - began_bootstrap_time)%Z in
  (* bootstrap part 2: gather all peers who responded within bootstrap_timeout *)
  '(finished_in_time, stragglers) <-
     run_wait remaining_tasks (bootstrap_timeout - time_to_first_response)%Z ALL_COMPLETED ;;
  nfor (fun straggler => emit (NCancel straggler)) stragglers ;;;
  let peer_ids :=
    map (task_result env)
        (filter (fun t => negb (is_none (task_result env t)))
                (first_finished ++ finished_in_time)) in
  (if (Nat.eqb (List.length peer_ids) 0 && negb (Nat.eqb (List.length initial_peers) 0))%bool
   then emit (NWarn "DHTNode bootstrap failed: none of the initial_peers responded to a ping.")
   else nret tt) ;;;
  (* bootstrap part 3: run beam search for my node id *)
  find_nearest_nodes node_id None ;;;
  nret self.

(** The warning of bootstrap, if it is due: no finished ping has a
    result other than None although there were peers to ping. *)
Definition bootstrap_warning (initial_peers : list Endpoint) (finished : list task)
    : list node_event :=
  if (Nat.eqb (List.length
                 (map (task_result env)
                      (filter (fun t => negb (is_none (task_result env t))) finished))) 0
      && negb (Nat.eqb (List.length initial_peers) 0))%bool
  then [NWarn "DHTNode bootstrap failed: none of the initial_peers responded to a ping."]
  else [].

(** The calls of the final lookup, and how it ends. *)
Definition lookup_events (query_id : DHTID) : list node_event :=
  NFindNearestNodes query_id ::
  match nearest_to_nothing env with
  | Ok initial_peers => [NBeamSearch query_id initial_peers None]
  | Raise _ => []
  end.

Definition lookup_result (query_id : DHTID) : result unit :=
  match nearest_to_nothing env with
  | Ok initial_peers => beam_search env query_id initial_peers None
  | Raise e => Raise e
  end.

(** The node that [__init__] builds from its arguments. *)
Definition constructed (node_id_arg : option DHTID) (port_arg : option Port)
    (bucket_size : nat) (num_replicas_arg : option nat) (staleness_timeout_arg : option Z)
    : DHTNode :=
  {| node_id := match node_id_arg with Some i => i | None => DHTID_generate env end;
     port := match port_arg with Some p => p | None => find_open_port env end;
     num_replicas := match num_replicas_arg with Some r => r | None => bucket_size end;
     staleness_timeout := staleness_timeout_arg |}.

(** [from random import random] binds the name [random] to the function
    [random.random], not to the module: of the attributes read in this
    file it has none. *)
Definition random_getattr (name : string) : result value :=
  Raise (AttributeError name).

(** [DHTID(random.randint(a, b))] *)
Definition random_randint_id (a b : Z) : N_ DHTID :=
  fun s => (s, match random_getattr "randint" with
               | Ok _ => Raise (TypeError "object is not callable")
               | Raise e => Raise e
               end).

(** [DHTNode.refresh_stale_buckets], given [self.protocol.routing_table]. *)
Definition refresh_stale_buckets (self : DHTNode) (routing_table : RT) : N_ unit :=
  now <- time_monotonic ;;
  staleness_threshold <-
    match staleness_timeout self with
    | Some timeout => nret (now - timeout)%Z
    | None => nraise (TypeError "unsupported operand type(s) for -: 'float' and 'NoneType'")
    end ;;
  let stale_buckets :=
    filter (fun bucket => (last_updated bucket <? staleness_threshold)%Z)
           (buckets routing_table) in
  refresh_ids <- ncollect (fun bucket =>
                   random_randint_id (Z.of_N (lower bucket)) (Z.of_N (upper bucket) - 1))
                   stale_buckets ;;
  nraise (NotImplementedError "TODO").

End Node.

(** ** A routing table and a local store to run the handlers on *)

Module Routing.

(** Modelled from the spec: the identifier class of [routing.py] is
    missing; identifiers are fixed-width, 160 bits wide. *)
Definition ID_BITS : N := 160%N.

(** Modelled from the spec: the class RoutingTable of [routing.py] is
    missing; the table is an ordered collection of buckets keyed by the
    local node's own identifier, with the capacity [bucket_size] of a
    bucket and the split policy's [depth_modulo]. [clock] is the reading
    of the monotonic clock that an update stamps on a bucket. *)
Record RoutingTable : Type := {
  own_id : DHTID;
  table_bucket_size : nat;
  depth_modulo : nat;
  table_buckets : list KBucket;
  clock : Z
}.

(** Modelled from the spec: a fresh table of [routing.py] (missing) is
    one bucket that covers the whole identifier space. *)
Definition empty_table (own : DHTID) (k b : nat) (now : Z) : RoutingTable :=
  {| own_id := own; table_bucket_size := k; depth_modulo := b;
     table_buckets := [ {| lower := 0%N; upper := (2 ^ ID_BITS)%N; nodes_to_endpoint := [];
                           replacement_nodes := []; last_updated := now |} ];
     clock := now |}.

(** Modelled from the spec: the range test of a bucket of [routing.py]
    (missing), for the half-open range. *)
Definition in_range (bucket : KBucket) (i : DHTID) : bool :=
  ((lower bucket <=? i) && (i <? upper bucket))%N.

(** Modelled from the spec: whether an identifier is among the peers
    held by a bucket of [routing.py] (missing). *)
Definition has_peer (i : DHTID) (peers : list (DHTID * Endpoint)) : bool :=
  existsb (fun p => (fst p =? i)%N) peers.

(** Modelled from the spec: removal of a peer from the entries of a
    bucket of [routing.py] (missing), before it is put last again. *)
Definition without_peer (i : DHTID) (peers : list (DHTID * Endpoint))
    : list (DHTID * Endpoint) :=
  filter (fun p => negb (fst p =? i)%N) peers.

(** Modelled from the spec: the depth of a bucket of [routing.py]
    (missing), the number of splits that lead from the root to it. *)
Definition depth (bucket : KBucket) : nat :=
  N.to_nat (ID_BITS - N.log2 (upper bucket - lower bucket)).

(** Modelled from the spec: the split rule of [routing.py] (missing); a
    bucket may split when it contains the local node's own identifier or
    lies within [depth_modulo] splits of the root. *)
Definition may_split (own : DHTID) (b : nat) (bucket : KBucket) : bool :=
  (in_range bucket own || (depth bucket <? b)%nat)
  && (1 <? upper bucket - lower bucket)%N.

(** Modelled from the spec: the split of [routing.py] (missing) divides
    the range at its midpoint and redistributes the entries by the half
    their identifier falls into. *)
Definition split (bucket : KBucket) : KBucket * KBucket :=
  let midpoint := ((lower bucket + upper bucket) / 2)%N in
  let left p := (fst p <? midpoint)%N in
  let right p := negb (fst p <? midpoint)%N in
  ({| lower := lower bucket; upper := midpoint;
      nodes_to_endpoint := filter left (nodes_to_endpoint bucket);
      replacement_nodes := filter left (replacement_nodes bucket);
      last_updated := last_updated bucket |},
   {| lower := midpoint; upper := upper bucket;
      nodes_to_endpoint := filter right (nodes_to_endpoint bucket);
      replacement_nodes := filter right (replacement_nodes bucket);
      last_updated := last_updated bucket |}).

(** Modelled from the spec: insert-or-refresh of [routing.py] (missing);
    the peer moves to the most-recently-seen position of its bucket and
    the bucket's [last_updated] is set. [None] when the bucket is full
    and the peer is new. *)
Definition add_or_refresh (k : nat) (now : Z) (i : DHTID) (endpoint : Endpoint)
    (bucket : KBucket) : option KBucket :=
  if (has_peer i (nodes_to_endpoint bucket)
      || (List.length (nodes_to_endpoint bucket) <? k)%nat)%bool
  then Some {| lower := lower bucket; upper := upper bucket;
               nodes_to_endpoint := without_peer i (nodes_to_endpoint bucket) ++ [(i, endpoint)];
               replacement_nodes := without_peer i (replacement_nodes bucket);
               last_updated := now |}
  else None.

(** Modelled from the spec: a full bucket of [routing.py] (missing) that
    may not split keeps the candidate as a pending replacement. *)
Definition add_replacement (i : DHTID) (endpoint : Endpoint) (bucket : KBucket) : KBucket :=
  {| lower := lower bucket; upper := upper bucket;
     nodes_to_endpoint := nodes_to_endpoint bucket;
     replacement_nodes := without_peer i (replacement_nodes bucket) ++ [(i, endpoint)];
     last_updated := last_updated bucket |}.

(** Modelled from the spec: the insertion of a responded contact in
    [routing.py] (missing): into its covering bucket, splitting a full
    bucket while the split rule allows it. [fuel] bounds the walk over
    the buckets and the successive splits. *)
Fixpoint insert_peer (fuel : nat) (own : DHTID) (k b : nat) (now : Z)
    (i : DHTID) (endpoint : Endpoint) (bs : list KBucket) : list KBucket :=
  match fuel, bs with
  | _, [] => []
  | O, _ => bs
  | S fuel', bucket :: rest =>
      if in_range bucket i then
        match add_or_refresh k now i endpoint bucket with
        | Some bucket' => bucket' :: rest
        | None =>
            if may_split own b bucket
            then let (l, r) := split bucket in
                 insert_peer fuel' own k b now i endpoint (l :: r :: rest)
            else add_replacement i endpoint bucket :: rest
        end
      else bucket :: insert_peer fuel' own k b now i endpoint rest
  end.

(** Modelled from the spec: the observation of a responded contact in
    the table of [routing.py] (missing). *)
Definition add_or_update_node (rt : RoutingTable) (i : DHTID) (endpoint : Endpoint)
    : RoutingTable :=
  {| own_id := own_id rt; table_bucket_size := table_bucket_size rt;
     depth_modulo := depth_modulo rt;
     table_buckets :=
       insert_peer (2 * N.to_nat ID_BITS + List.length (table_buckets rt) + 1)
         (own_id rt) (table_bucket_size rt) (depth_modulo rt) (clock rt) i endpoint
         (table_buckets rt);
     clock := clock rt |}.

(** Modelled from the spec: the peers known to the table of
    [routing.py] (missing), bucket by bucket. *)
Definition known_peers (rt : RoutingTable) : list (DHTID * Endpoint) :=
  flat_map nodes_to_endpoint (table_buckets rt).

(** Modelled from the spec: the ordering of the nearest-neighbour query
    of [routing.py] (missing), ascending in the key, by insertion. *)
Fixpoint insert_sorted (key : DHTID -> N) (x : DHTID) (l : list DHTID) : list DHTID :=
  match l with
  | [] => [x]
  | y :: rest => if (key x <=? key y)%N then x :: l else y :: insert_sorted key x rest
  end.

(** Modelled from the spec: see [insert_sorted]; [routing.py] is missing. *)
Definition sort_by (key : DHTID -> N) (l : list DHTID) : list DHTID :=
  fold_right (insert_sorted key) [] l.

(** Modelled from the spec: the optional [exclude] of the
    nearest-neighbour query of [routing.py] (missing). *)
Definition excluded (exclude : option DHTID) (i : DHTID) : bool :=
  match exclude with Some x => (x =? i)%N | None => false end.

(** Modelled from the spec: the members of RoutingTable in [routing.py]
    (missing). A request from a peer and a responded request to a peer
    insert or refresh it; a request without response inserts nothing.
    The nearest neighbours are up to [k] known peers in ascending XOR
    distance to the target, without the excluded identifier. *)
#[export] Instance ops : RoutingTableOps RoutingTable := {
  register_request_from rt sender sender_id := add_or_update_node rt sender_id sender;
  register_request_to rt recipient recipient_node_id responded :=
    match responded, recipient_node_id with
    | true, VId i => add_or_update_node rt i recipient
    | _, _ => rt
    end;
  contains rt i := has_peer i (known_peers rt);
  getitem rt i :=
    option_map snd (find (fun p => (fst p =? i)%N) (known_peers rt));
  get_nearest_neighbors rt target k exclude :=
    firstn k (sort_by (xor_distance target)
                (filter (fun i => negb (excluded exclude i)) (map fst (known_peers rt))));
  buckets := table_buckets
}.

End Routing.

Module LocalStore.

(** Modelled from the spec: the node object behind [self.node] is not
    among the sources; it owns an identifier and the local store, a
    mapping from key to the record with the highest expiration time
    accepted so far. [now] is the clock reading that [get] compares
    expiration times with. *)
Record Node : Type := {
  id_ : DHTID;
  storage : list (DHTID * (DHTValue * DHTExpirationTime));
  now : Z
}.

(** Modelled from the spec: the record that the local store (missing)
    holds for a key. *)
Definition lookup (key : DHTID) (n : Node) : option (DHTValue * DHTExpirationTime) :=
  option_map snd (find (fun p => (fst p =? key)%N) (storage n)).

(** Modelled from the spec: [put] of the local store (missing) accepts
    and overwrites iff there is no record for the key or the record's
    expiration time is strictly less than the new one. *)
Definition put (n : Node) (key : DHTID) (v : DHTValue) (expiration_time : DHTExpirationTime)
    : Node * bool :=
  let accepted :=
    match lookup key n with
    | Some (_, held) => (held <? expiration_time)%Z
    | None => true
    end in
  if accepted
  then ({| id_ := id_ n;
           storage := (key, (v, expiration_time))
                        :: filter (fun p => negb (fst p =? key)%N) (storage n);
           now := now n |}, true)
  else (n, false).

(** Modelled from the spec: [get] of the local store (missing) returns
    the record iff its expiration time is greater than [now], and
    [(None, None)] otherwise. *)
Definition get_ (n : Node) (key : DHTID) : value :=
  match lookup key n with
  | Some (v, expiration_time) =>
      if (now n <? expiration_time)%Z
      then VTuple [VBytes v; VTime expiration_time]
      else VTuple [VNone; VNone]
  | None => VTuple [VNone; VNone]
  end.

(** Modelled from the spec: the members of the node object (missing)
    that the handlers call, over the local store. *)
#[export] Instance ops : NodeOps Node := {
  id := id_;
  store := put;
  get := get_
}.

End LocalStore.

(** ** Concrete nodes, tables and networks *)

Module Example.

Import Routing LocalStore.

Definition alice : Endpoint := ("10.0.0.1", 8001%N).
Definition bob : Endpoint := ("10.0.0.2", 8002%N).
Definition carol : Endpoint := ("10.0.0.3", 8003%N).
Definition dave : Endpoint := ("10.0.0.4", 8004%N).

(** A node with identifier 5 that holds a live record for key 4. *)
Definition local_node : Node :=
  {| id_ := 5%N; storage := [(4%N, ("v", 100%Z))]; now := 10%Z |}.

(** Its protocol object, before any contact, after
    [RPCProtocol.__init__] has been run on it with its default
    wait_timeout of 5 seconds. *)
Definition fresh : world RoutingTable Node :=
  {| self := {| node := local_node; bucket_size := 20; num_neighbors := 2;
                routing_table := empty_table 5%N 20 5 10%Z;
                _wait_timeout := Some 5%Z |};
     log := [] |}.

(** The same after pings from the peers 1, 7 and 12. *)
Definition populated : world RoutingTable Node :=
  {| self := self (fst (rpc_ping carol 12%N
                     (fst (rpc_ping bob 7%N (fst (rpc_ping alice 1%N fresh))))));
     log := [] |}.

(** A network in which nobody answers. *)
Definition silent : string -> Endpoint -> list value -> option value :=
  fun _ _ _ => None.

(** A network in which the peer with identifier 9 answers: it accepts
    every store, and knows no value and no neighbours. *)
Definition answering : string -> Endpoint -> list value -> option value :=
  fun rpc _ _ =>
    if rpc =? "ping" then Some (VId 9%N)
    else if rpc =? "store" then Some (VTuple [VBool true; VId 9%N])
    else if rpc =? "find_node" then Some (VTuple [VList []; VId 9%N])
    else if rpc =? "find_value" then Some (VTuple [VNone; VNone; VList []; VId 9%N])
    else None.

(** An event loop on which the first peer answers the ping with the
    identifier 9 before the first wait returns, and every other peer is
    still pending when the second wait gives up. The clock advances by 3
    from one reading to the next. *)
Definition first_answers : Env :=
  {| DHTID_generate := 5%N;
     find_open_port := 8000%N;
     monotonic := fun n => (100 + 3 * Z.of_nat n)%Z;
     asyncio_wait := fun n tasks _ _ =>
       match n with
       | O => Ok (firstn 1 tasks, skipn 1 tasks)
       | S _ => Ok ([], tasks)
       end;
     task_result := fun _ => VId 9%N;
     nearest_to_nothing := Ok [];
     beam_search := fun _ _ _ => Ok tt |}.

(** An event loop on which no peer ever answers: the first wait times
    out with every ping pending, the pings then finish with None. *)
Definition nobody_answers : Env :=
  {| DHTID_generate := 5%N;
     find_open_port := 8000%N;
     monotonic := fun n => (100 + 5 * Z.of_nat n)%Z;
     asyncio_wait := fun n tasks _ _ =>
       match n with
       | O => Ok ([], tasks)
       | S _ => Ok (tasks, [])
       end;
     task_result := fun _ => VNone;
     nearest_to_nothing := Ok [];
     beam_search := fun _ _ _ => Ok tt |}.

End Example.

(** ** The handlers as one family, and requests on their way *)

(** An inbound request, as rpcudp hands it to the handler of its name:
    the sender's address first, then the arguments the caller sent. *)
Inductive server_call : Type :=
| OnPing (sender : Endpoint) (sender_id : DHTID)
| OnStore (sender : Endpoint) (sender_id : DHTID) (key : DHTID) (v : DHTValue)
          (expiration_time : DHTExpirationTime)
| OnFindNode (sender : Endpoint) (sender_id : DHTID) (key_node : DHTID)
| OnFindValue (sender : Endpoint) (sender_id : DHTID) (key : DHTID).

Definition sender_of (c : server_call) : Endpoint :=
  match c with
  | OnPing s _ | OnStore s _ _ _ _ | OnFindNode s _ _ | OnFindValue s _ _ => s
  end.

Definition sender_id_of (c : server_call) : DHTID :=
  match c with
  | OnPing _ i | OnStore _ i _ _ _ | OnFindNode _ i _ | OnFindValue _ i _ => i
  end.

(** The request of a caller whose node id is [own], as it arrives from
    the address [sender]: every caller sends its own id first. *)
Definition arriving (sender : Endpoint) (own : DHTID) (c : client_call) : server_call :=
  match c with
  | Ping _ => OnPing sender own
  | Store _ key v expiration_time => OnStore sender own key v expiration_time
  | FindNode _ key_node => OnFindNode sender own key_node
  | FindValue _ key => OnFindValue sender own key
  end.

Definition is_register_from (e : event) : bool :=
  match e with EvRegisterFrom _ _ => true | _ => false end.

Definition is_send (e : event) : bool :=
  match e with EvSend _ _ _ => true | _ => false end.

Definition is_warn (e : node_event) : bool :=
  match e with NWarn _ => true | _ => false end.

Definition is_beam_search (e : node_event) : bool :=
  match e with NBeamSearch _ _ _ => true | _ => false end.

Section Serving.

Context {RT Node : Type} {RTO : RoutingTableOps RT} {NO : NodeOps Node}.

Definition handle (c : server_call) : M RT Node value :=
  match c with
  | OnPing sender sender_id => rpc_ping sender sender_id
  | OnStore sender sender_id key v expiration_time =>
      rpc_store sender sender_id key v expiration_time
  | OnFindNode sender sender_id key_node => rpc_find_node sender sender_id key_node
  | OnFindValue sender sender_id key => rpc_find_value sender sender_id key
  end.

(** Whether [tuple(self.node.get(key))] can be built for the request;
    only find_value reads the node's store. *)
Definition store_readable (c : server_call) (w : world RT Node) : bool :=
  match c with
  | OnFindValue _ _ key => is_ok (to_tuple (get (node (self w)) key))
  | _ => true
  end.

End Serving.

(** ** More nodes and event loops to run on *)

Module Scenario.

Import Routing LocalStore.

(** A node object whose [get] hands back something that is not
    iterable, as a method that returns None or a coroutine does. *)
Record OpaqueNode : Type := { opaque_id : DHTID }.

#[export] Instance opaque_ops : NodeOps OpaqueNode := {
  id := opaque_id;
  store := fun n _ _ _ => (n, false);
  get := fun _ _ => VObject "coroutine"
}.

Definition opaque_world : world Routing.RoutingTable OpaqueNode :=
  {| self := {| node := {| opaque_id := 5%N |}; bucket_size := 20; num_neighbors := 2;
                routing_table := Routing.empty_table 5%N 20 5 10%Z;
                _wait_timeout := None |};
     log := [] |}.

(** The protocol object of [Example.local_node] as
    [KademliaProtocol.__init__] builds it, before any contact. *)
Definition as_built : world RoutingTable LocalStore.Node :=
  {| self := KademliaProtocol_init (fun n k b _ => empty_table (LocalStore.id_ n) k b 10%Z)
               Example.local_node 20 5 2 (VObject "typing.Union[float, int]");
     log := [] |}.

(** An event loop whose [asyncio.wait] refuses an empty collection of
    tasks, and on which every ping is finished, with None as result
    because nobody answered, when the first wait returns. *)
Definition fast_silence : Env :=
  {| DHTID_generate := 5%N;
     find_open_port := 8000%N;
     monotonic := fun n => (100 + Z.of_nat n)%Z;
     asyncio_wait := fun _ tasks _ _ =>
       match tasks with
       | [] => Raise (ValueError "Set of coroutines/Futures is empty.")
       | _ :: _ => Ok (tasks, [])
       end;
     task_result := fun _ => VNone;
     nearest_to_nothing := Ok [];
     beam_search := fun _ _ _ => Ok tt |}.

(** An event loop whose [asyncio.wait] refuses an empty collection of
    tasks, and on which every ping is finished, with the identifier 9,
    when the first wait returns. *)
Definition strict_loop : Env :=
  {| DHTID_generate := 5%N;
     find_open_port := 8000%N;
     monotonic := fun n => (100 + Z.of_nat n)%Z;
     asyncio_wait := fun _ tasks _ _ =>
       match tasks with
       | [] => Raise (ValueError "Set of coroutines/Futures is empty.")
       | _ :: _ => Ok (tasks, [])
       end;
     task_result := fun _ => VId 9%N;
     nearest_to_nothing := Ok [];
     beam_search := fun _ _ _ => Ok tt |}.

(** An event loop on which nobody answers and the routing table refuses
    [get_nearest_neighbors()] without arguments. *)
Definition no_seed : Env :=
  {| DHTID_generate := 5%N;
     find_open_port := 8000%N;
     monotonic := fun n => (100 + 5 * Z.of_nat n)%Z;
     asyncio_wait := fun n tasks _ _ =>
       match n with
       | O => Ok ([], tasks)
       | S _ => Ok (tasks, [])
       end;
     task_result := fun _ => VNone;
     nearest_to_nothing := Raise (TypeError "missing 1 required positional argument");
     beam_search := fun _ _ _ => Ok tt |}.

End Scenario.

(** * Properties of the request protocol *)

Section ProtocolFacts.

Context {RT Node : Type} {RTO : RoutingTableOps RT} {NO : NodeOps Node}.
Variable net : string -> Endpoint -> list value -> option value.

(** [self.node_id] is set neither by [__init__] nor by the class body,
    so it is answered by [RPCProtocol.__getattr__]. *)
Lemma getattr_node_id (p : KademliaProtocol RT Node) :
  getattr p "node_id" = Ok (VStub "node_id").
Proof. reflexivity. Qed.

(** The four remote procedures resolve the same way. *)
Lemma getattr_remote (p : KademliaProtocol RT Node) (c : client_call) :
  getattr p (rpc_of c) = Ok (VStub (rpc_of c)).
Proof. destruct c; reflexivity. Qed.

(** What reading [self._wait_timeout] gives. *)
Lemma getattr_wait_timeout (p : KademliaProtocol RT Node) :
  getattr p "_wait_timeout"
  = match _wait_timeout p with
    | Some seconds => Ok (VInt seconds)
    | None => Raise (AttributeError "_wait_timeout")
    end.
Proof.
  unfold getattr. simpl. destruct (_wait_timeout p); reflexivity.
Qed.

(** Awaiting a remote procedure on an instance without
    [_wait_timeout]: the request is sent, and the closure raises. *)
Lemma await_remote_as_built (c : client_call) (own : DHTID) (w : world RT Node) :
  _wait_timeout (self w) = None ->
  await_remote net (rpc_of c) (recipient_of c) (args_of own c) w =
  (record (EvSend (rpc_of c) (recipient_of c) (args_of own c)) w,
   Raise (AttributeError "_wait_timeout")).
Proof.
  intros Hnone. unfold await_remote, bind at 1, self_attr at 1.
  rewrite getattr_remote.
  unfold bind, self_attr. rewrite getattr_wait_timeout.
  replace (_wait_timeout (self (record (EvSend (rpc_of c) (recipient_of c) (args_of own c)) w)))
    with (_wait_timeout (self w)) by reflexivity.
  rewrite Hnone. reflexivity.
Qed.

(** C2. On every instance that [KademliaProtocol.__init__] builds, none
    of call_ping, call_store, call_find_node and call_find_value gets
    as far as register_request_to, whatever the peer does: the call
    ends with an exception, no registration is made and the routing
    table is the one the caller found. call_ping and call_store send
    the request and stop at [self._wait_timeout]; call_find_node and
    call_find_value do not run at all. *)
Theorem callers_never_register_as_built
    (RoutingTable : Node -> nat -> nat -> value -> RT) (n : Node)
    (size modulo neighbors : nat) (staleness_timeout : value)
    (calls : list event) (c : client_call) :
  let w := {| self := KademliaProtocol_init RoutingTable n size modulo neighbors
                        staleness_timeout;
              log := calls |} in
  (exists e, snd (issue net c w) = Raise e)
  /\ filter is_register_to (log (fst (issue net c w))) = filter is_register_to calls
  /\ routing_table (self (fst (issue net c w))) = routing_table (self w).
Proof.
  intros w.
  pose proof (await_remote_as_built c (id (node (self w))) w eq_refl) as Hawait.
  destruct c as [r | r key v t | r key | r key];
    cbn [rpc_of recipient_of args_of issue] in Hawait |- *.
  - unfold call_ping, bind, self_node_id. rewrite Hawait.
    cbn [fst snd log record self with_routing_table].
    rewrite filter_app. simpl. rewrite app_nil_r. eauto.
  - unfold call_store, bind, self_node_id. rewrite Hawait.
    cbn [fst snd log record self with_routing_table].
    rewrite filter_app. simpl. rewrite app_nil_r. eauto.
  - unfold call_find_node, raise. simpl. eauto.
  - unfold call_find_value, raise. simpl. eauto.
Qed.

(** C8. call_find_value is a plain [def] around an [await]: whatever
    the recipient does, no call of it returns (None, None, []); every
    call ends where Python refuses the function, and nothing has been
    sent or registered by then. *)
Theorem call_find_value_never_returns recipient key (w : world RT Node) :
  call_find_value recipient key w
  = (w, Raise (SyntaxError "'await' outside async function"))
  /\ snd (call_find_value recipient key w) <> Ok (VTuple [VNone; VNone; VList []]).
Proof.
  split; [reflexivity | discriminate].
Qed.

(** The list comprehension over the neighbours reads the table only. *)
Lemma for_each_entries (ids : list DHTID) (w : world RT Node) :
  for_each (fun neighbor_id =>
              bind (table_getitem neighbor_id)
                   (fun endpoint => ret (VTuple [VId neighbor_id; VEndpoint endpoint])))
           ids w
  = (w, match neighbor_entries (routing_table (self w)) ids with
        | Some entries => Ok entries
        | None => Raise KeyError
        end).
Proof.
  induction ids as [|i rest IH]; simpl.
  - reflexivity.
  - unfold bind, table_getitem, ret in *.
    destruct (getitem (routing_table (self w)) i) as [endpoint|]; [|reflexivity].
    rewrite IH.
    destruct (neighbor_entries (routing_table (self w)) rest); reflexivity.
Qed.

(** rpc_find_node on a target that the table knows once the sender is
    recorded: the target alone, and the node's own id. *)
Lemma rpc_find_node_known sender sender_id key_node endpoint (w : world RT Node) :
  contains (routing_table (self (recorded sender sender_id w))) key_node = true ->
  getitem (routing_table (self (recorded sender sender_id w))) key_node = Some endpoint ->
  rpc_find_node sender sender_id key_node w =
  (recorded sender sender_id w,
   Ok (VTuple [VList [VTuple [VId key_node; VEndpoint endpoint]];
               VId (id (node (self w)))])).
Proof.
  intros Hin Hat.
  unfold rpc_find_node, bind, table_register_request_from, table_contains.
  fold (recorded sender sender_id w). rewrite Hin.
  unfold table_getitem. rewrite Hat. reflexivity.
Qed.

(** C10. When the sender asks for its own identifier and the table
    holds that identifier (with some endpoint) once the sender is
    recorded, rpc_find_node answers with the sender itself as the only
    entry: the membership test comes before the search that leaves the
    sender out. *)
Theorem rpc_find_node_own_id_of_sender sender sender_id endpoint (w : world RT Node) :
  contains (routing_table (self (recorded sender sender_id w))) sender_id = true ->
  getitem (routing_table (self (recorded sender sender_id w))) sender_id = Some endpoint ->
  snd (rpc_find_node sender sender_id sender_id w) =
  Ok (VTuple [VList [VTuple [VId sender_id; VEndpoint endpoint]];
              VId (id (node (self w)))]).
Proof.
  intros Hin Hat.
  rewrite (rpc_find_node_known sender sender_id sender_id endpoint w Hin Hat).
  reflexivity.
Qed.

(** C9, as the code has it. When the target is not known once the
    sender is recorded, rpc_find_node reads [self.node_id]; the name is
    defined neither by [__init__] nor by the class, so the read is
    answered by RPCProtocol with a closure for a remote procedure. No
    AttributeError is raised: the handler returns the neighbour list,
    paired with that closure where the node's own id belongs. *)
Theorem rpc_find_node_unknown_target sender sender_id key_node (w : world RT Node) :
  let rt := routing_table (self (recorded sender sender_id w)) in
  contains rt key_node = false ->
  rpc_find_node sender sender_id key_node w =
  (recorded sender sender_id w,
   match neighbor_entries rt
           (get_nearest_neighbors rt key_node (num_neighbors (self w)) (Some sender_id)) with
   | Some neighbors => Ok (VTuple [VList neighbors; VStub "node_id"])
   | None => Raise KeyError
   end).
Proof.
  intros rt Hout.
  unfold rpc_find_node, bind at 1 2, table_register_request_from, table_contains.
  fold (recorded sender sender_id w). fold rt. rewrite Hout.
  unfold bind at 1. unfold self_num_neighbors at 1.
  unfold bind at 1. unfold table_get_nearest_neighbors at 1.
  unfold bind at 1. rewrite for_each_entries. fold rt.
  replace (num_neighbors (self (recorded sender sender_id w)))
    with (num_neighbors (self w)) by reflexivity.
  destruct (neighbor_entries rt _); reflexivity.
Qed.

(** rpc_find_value is the node's answer for the key followed by what
    rpc_find_node returns for the same sender and key. *)
Lemma rpc_find_value_unfold sender sender_id key (w : world RT Node) found :
  to_tuple (get (node (self w)) key) = Ok found ->
  rpc_find_value sender sender_id key w =
  match rpc_find_node sender sender_id key (record (EvNodeGet key) w) with
  | (w', Ok (VTuple node_items)) => (w', Ok (VTuple (found ++ node_items)))
  | (w', Ok _) => (w', Raise (TypeError "can only concatenate tuple to tuple"))
  | (w', Raise e) => (w', Raise e)
  end.
Proof.
  intros Hfound.
  unfold rpc_find_value, bind at 1 2, self_node_get, lift. rewrite Hfound.
  unfold bind at 1.
  destruct (rpc_find_node sender sender_id key (record (EvNodeGet key) w)) as [w' [v|e]];
    [destruct v|]; reflexivity.
Qed.

End ProtocolFacts.

(** * The protocol on concrete nodes *)

Section ProtocolRuns.

Import Routing LocalStore Example.

(** call_ping on the instance that [KademliaProtocol.__init__] builds
    for the node 5, towards a peer that would answer: the request is
    sent, the closure raises at [self._wait_timeout], and
    register_request_to is not reached. *)
Lemma call_ping_as_built_run :
  call_ping answering alice Scenario.as_built
  = (record (EvSend "ping" alice [VId 5%N]) Scenario.as_built,
     Raise (AttributeError "_wait_timeout")).
Proof. reflexivity. Qed.

(** C3. The peer accepts the store and replies (True, 9); call_store
    hands back that whole reply, not the accepted flag True. *)
Theorem call_store_returns_reply_not_flag :
  snd (call_store answering alice 4%N "v" 100%Z fresh) = Ok (VTuple [VBool true; VId 9%N])
  /\ snd (call_store answering alice 4%N "v" 100%Z fresh) <> Ok (VBool true)
  /\ snd (call_store silent alice 4%N "v" 100%Z fresh) = Ok (VBool false).
Proof.
  repeat split; vm_compute; try reflexivity. discriminate.
Qed.

(** Witness of C10: the peer 1 at [alice], unknown so far, asks the
    fresh node for identifier 1. *)
Lemma rpc_find_node_own_id_of_sender_witness :
  snd (rpc_find_node alice 1%N 1%N fresh) =
  Ok (VTuple [VList [VTuple [VId 1%N; VEndpoint alice]]; VId 5%N]).
Proof.
  refine (rpc_find_node_own_id_of_sender alice 1%N alice fresh _ _); reflexivity.
Defined.

(** The node 5 knows the peers 1, 7 and 12; the peer 6 at [dave] asks
    for identifier 4, which the table does not hold. The handler returns
    the two nearest peers, 7 and 1, and for [self.node_id] the closure
    of RPCProtocol. *)
Lemma rpc_find_node_fallback_run :
  snd (rpc_find_node dave 6%N 4%N populated) =
  Ok (VTuple [VList [VTuple [VId 7%N; VEndpoint bob]; VTuple [VId 1%N; VEndpoint alice]];
              VStub "node_id"]).
Proof. vm_compute. reflexivity. Qed.

(** C1. On that request the target is not known to the table, and
    whatever the neighbour list, the handler does not return it
    together with the node's own id 5: the nearest-neighbours branch
    does not return the own id that the directly-known branch returns. *)
Theorem rpc_find_node_fallback_lacks_own_id :
  contains (routing_table (self (recorded dave 6%N populated))) 4%N = false
  /\ id (node (self populated)) = 5%N
  /\ forall neighbors : list value,
       snd (rpc_find_node dave 6%N 4%N populated) <> Ok (VTuple [VList neighbors; VId 5%N]).
Proof.
  split; [reflexivity|]. split; [reflexivity|].
  intros neighbors. rewrite rpc_find_node_fallback_run. discriminate.
Qed.

(** The same table and request, for find_value: the node holds a live
    record for key 4 and returns it together with the neighbour list
    and what rpc_find_node gave for [self.node_id]. *)
Lemma rpc_find_value_fallback_run :
  snd (rpc_find_value dave 6%N 4%N populated) =
  Ok (VTuple [VBytes "v"; VTime 100%Z;
              VList [VTuple [VId 7%N; VEndpoint bob]; VTuple [VId 1%N; VEndpoint alice]];
              VStub "node_id"]).
Proof. vm_compute. reflexivity. Qed.

(** C4. On that request rpc_find_value returns no 4-tuple that ends
    with the node's own id 5, whatever its first three components. *)
Theorem rpc_find_value_fallback_lacks_own_id :
  forall v expiration_time neighbors : value,
    snd (rpc_find_value dave 6%N 4%N populated)
    <> Ok (VTuple [v; expiration_time; neighbors; VId 5%N]).
Proof.
  intros v expiration_time neighbors. rewrite rpc_find_value_fallback_run. discriminate.
Qed.

(** C9 as stated fails: the target 4 is not known to the table, and
    rpc_find_node raises no AttributeError. *)
Lemma rpc_find_node_fallback_raises_nothing :
  ~ (contains (routing_table (self (recorded dave 6%N populated))) 4%N = false ->
     exists name, snd (rpc_find_node dave 6%N 4%N populated) = Raise (AttributeError name)).
Proof.
  intros H. destruct (H eq_refl) as [name Hname].
  vm_compute in Hname. discriminate.
Qed.

(** Witness of C9 as amended, on the same request. *)
Lemma rpc_find_node_unknown_target_witness :
  rpc_find_node dave 6%N 4%N populated =
  (recorded dave 6%N populated,
   Ok (VTuple [VList [VTuple [VId 7%N; VEndpoint bob]; VTuple [VId 1%N; VEndpoint alice]];
               VStub "node_id"])).
Proof.
  rewrite (rpc_find_node_unknown_target dave 6%N 4%N populated); reflexivity.
Defined.

End ProtocolRuns.

(** * Properties of the node orchestrator *)

Section NodeFacts.

Context {RT : Type} {RTO : RoutingTableOps RT}.

Variable env : Env.

(** Cancelling the stragglers logs one cancellation per straggler, in
    order, and nothing else. *)
Lemma nfor_cancel (stragglers : list task) (s : run_state) :
  nfor (fun straggler => emit (NCancel straggler)) stragglers s =
  ({| clock_reads := clock_reads s; waits := waits s;
      events := events s ++ map NCancel stragglers |}, Ok tt).
Proof.
  revert s. induction stragglers as [|t rest IH]; intros s; simpl.
  - unfold nret. rewrite app_nil_r. destruct s; reflexivity.
  - unfold nbind, emit. rewrite IH. simpl. rewrite <- app_assoc. reflexivity.
Qed.

(** The whole run of [__init__] when both waits return. *)
Lemma DHTNode_init_run node_id_arg port_arg initial_peers bucket_size num_replicas_arg
    depth_modulo wait_timeout staleness_timeout_arg bootstrap_timeout_arg interface
    first_finished remaining_tasks finished_in_time stragglers :
  let self := constructed env node_id_arg port_arg bucket_size num_replicas_arg
                staleness_timeout_arg in
  let bootstrap_timeout :=
    match bootstrap_timeout_arg with Some t => t | None => wait_timeout end in
  let began := monotonic env 0 in
  let elapsed := (monotonic env 1 - began)%Z in
  asyncio_wait env 0 (map PingTask initial_peers) wait_timeout FIRST_COMPLETED
    = Ok (first_finished, remaining_tasks) ->
  asyncio_wait env 1 remaining_tasks (bootstrap_timeout - elapsed)%Z ALL_COMPLETED
    = Ok (finished_in_time, stragglers) ->
  DHTNode_init env node_id_arg port_arg initial_peers bucket_size num_replicas_arg
    depth_modulo wait_timeout staleness_timeout_arg bootstrap_timeout_arg interface start
  = ({| clock_reads := 2; waits := 2;
        events :=
          [NListen interface (port self);
           NMonotonic began;
           NWait (map PingTask initial_peers) wait_timeout FIRST_COMPLETED;
           NMonotonic (monotonic env 1);
           NWait remaining_tasks (bootstrap_timeout - elapsed)%Z ALL_COMPLETED]
          ++ map NCancel stragglers
          ++ bootstrap_warning env initial_peers (first_finished ++ finished_in_time)
          ++ lookup_events env (node_id self) |},
     match lookup_result env (node_id self) with
     | Ok _ => Ok self
     | Raise e => Raise e
     end).
Proof.
  intros self bootstrap_timeout began elapsed H1 H2.
  unfold DHTNode_init.
  unfold nbind at 1. unfold emit at 1. simpl.
  unfold nbind at 1. unfold time_monotonic at 1. simpl.
  unfold nbind at 1. unfold run_wait at 1. simpl. rewrite H1.
  unfold nbind at 1. unfold time_monotonic at 1. simpl.
  unfold nbind at 1. unfold run_wait at 1. simpl.
  fold began. fold elapsed. fold bootstrap_timeout. rewrite H2.
  unfold nbind at 1. rewrite nfor_cancel. simpl.
  unfold bootstrap_warning, lookup_events, lookup_result, find_nearest_nodes.
  unfold nbind, emit, nret. simpl.
  destruct (_ && _)%bool; simpl;
    destruct (nearest_to_nothing env) as [peers|e]; simpl;
    rewrite <- ?app_assoc; simpl; try reflexivity;
    destruct (beam_search env _ peers None) as [[]|e]; reflexivity.
Qed.

Lemma lookup_events_no_wait_no_cancel (query_id : DHTID) :
  filter is_wait (lookup_events env query_id) = []
  /\ filter is_cancel (lookup_events env query_id) = [].
Proof.
  unfold lookup_events. destruct (nearest_to_nothing env); split; reflexivity.
Qed.

Lemma bootstrap_warning_no_wait_no_cancel initial_peers finished :
  filter is_wait (bootstrap_warning env initial_peers finished) = []
  /\ filter is_cancel (bootstrap_warning env initial_peers finished) = [].
Proof.
  unfold bootstrap_warning. destruct (_ && _)%bool; split; reflexivity.
Qed.

(** C5. When both waits return, the calls of [__init__] on the loop are,
    in this order: the clock is read; one wait on the pings of all
    initial_peers, with timeout wait_timeout, that returns at the first
    completion; the clock is read again; one wait on the pings that
    remained, with timeout bootstrap_timeout minus the time between the
    two readings; one cancel for each ping still pending after it.
    Nothing is waited for or cancelled afterwards. *)
Theorem bootstrap_waits_twice_then_cancels node_id_arg port_arg initial_peers bucket_size
    num_replicas_arg depth_modulo wait_timeout staleness_timeout_arg bootstrap_timeout_arg
    interface first_finished remaining_tasks finished_in_time stragglers :
  let self := constructed env node_id_arg port_arg bucket_size num_replicas_arg
                staleness_timeout_arg in
  let bootstrap_timeout :=
    match bootstrap_timeout_arg with Some t => t | None => wait_timeout end in
  let began := monotonic env 0 in
  let elapsed := (monotonic env 1 - began)%Z in
  asyncio_wait env 0 (map PingTask initial_peers) wait_timeout FIRST_COMPLETED
    = Ok (first_finished, remaining_tasks) ->
  asyncio_wait env 1 remaining_tasks (bootstrap_timeout - elapsed)%Z ALL_COMPLETED
    = Ok (finished_in_time, stragglers) ->
  exists rest,
    events (fst (DHTNode_init env node_id_arg port_arg initial_peers bucket_size
                   num_replicas_arg depth_modulo wait_timeout staleness_timeout_arg
                   bootstrap_timeout_arg interface start))
    = ([NListen interface (port self);
        NMonotonic began;
        NWait (map PingTask initial_peers) wait_timeout FIRST_COMPLETED;
        NMonotonic (monotonic env 1);
        NWait remaining_tasks (bootstrap_timeout - elapsed)%Z ALL_COMPLETED]
       ++ map NCancel stragglers ++ rest)%list
    /\ filter is_wait rest = []
    /\ filter is_cancel rest = [].
Proof.
  intros self bootstrap_timeout began elapsed H1 H2.
  rewrite (DHTNode_init_run node_id_arg port_arg initial_peers bucket_size num_replicas_arg
             depth_modulo wait_timeout staleness_timeout_arg bootstrap_timeout_arg interface
             first_finished remaining_tasks finished_in_time stragglers H1 H2).
  exists (bootstrap_warning env initial_peers (first_finished ++ finished_in_time)
          ++ lookup_events env (node_id self))%list.
  split; [reflexivity|].
  rewrite !filter_app.
  destruct (lookup_events_no_wait_no_cancel (node_id self)) as [-> ->].
  destruct (bootstrap_warning_no_wait_no_cancel initial_peers
              (first_finished ++ finished_in_time)) as [-> ->].
  split; reflexivity.
Qed.

(** The identifiers to refresh are never drawn: the first stale bucket
    stops the comprehension. *)
Lemma ncollect_randint (stale_buckets : list KBucket) (s : run_state) :
  ncollect (fun bucket =>
              random_randint_id (Z.of_N (lower bucket)) (Z.of_N (upper bucket) - 1))
           stale_buckets s
  = (s, match stale_buckets with
        | [] => Ok []
        | _ :: _ => Raise (AttributeError "randint")
        end).
Proof.
  destruct stale_buckets; reflexivity.
Qed.

(** C7. refresh_stale_buckets never returns: it ends with an
    exception whatever the buckets are, and on the way it issues no
    lookup at all, whether a bucket is stale or not. *)
Theorem refresh_stale_buckets_issues_no_lookup (self : DHTNode)
    (routing_table : RT) (s : run_state) :
  (exists e, snd (refresh_stale_buckets env self routing_table s) = Raise e)
  /\ filter is_lookup (events (fst (refresh_stale_buckets env self routing_table s)))
     = filter is_lookup (events s).
Proof.
  unfold refresh_stale_buckets.
  unfold nbind at 1 3. unfold time_monotonic. simpl.
  destruct (staleness_timeout self) as [timeout|]; simpl.
  - unfold nbind at 1 3. unfold nret at 1 2. simpl.
    unfold nbind. rewrite ncollect_randint.
    destruct (filter _ (buckets routing_table)); simpl.
    + split; [eexists; reflexivity|]. rewrite filter_app. simpl. apply app_nil_r.
    + split; [eexists; reflexivity|]. rewrite filter_app. simpl. apply app_nil_r.
  - unfold nbind, nraise. simpl.
    split; [eexists; reflexivity|]. rewrite filter_app. simpl. apply app_nil_r.
Qed.

End NodeFacts.

(** * The node orchestrator on concrete event loops *)

Section NodeRuns.

Import Routing Example.

(** Witness of C5: three peers, of which the first answers after 3 ticks
    and the other two are still pending when the deadline of 5 - 3 = 2
    ticks passes. *)
Lemma bootstrap_waits_twice_then_cancels_witness :
  exists rest,
    events (fst (DHTNode_init first_answers None None [alice; bob; carol] 20 None 5 5%Z
                   (Some 600%Z) None "0.0.0.0" start))
    = ([NListen "0.0.0.0" 8000%N;
        NMonotonic 100%Z;
        NWait [PingTask alice; PingTask bob; PingTask carol] 5%Z FIRST_COMPLETED;
        NMonotonic 103%Z;
        NWait [PingTask bob; PingTask carol] 2%Z ALL_COMPLETED]
       ++ map NCancel [PingTask bob; PingTask carol] ++ rest)%list
    /\ filter is_wait rest = []
    /\ filter is_cancel rest = [].
Proof.
  refine (bootstrap_waits_twice_then_cancels first_answers None None [alice; bob; carol]
            20 None 5 5%Z (Some 600%Z) None "0.0.0.0"
            [PingTask alice] [PingTask bob; PingTask carol]
            [] [PingTask bob; PingTask carol] _ _); reflexivity.
Defined.

(** C6. One initial peer that never answers and whose ping is finished,
    with None, when the first wait returns, on a loop whose wait refuses
    an empty collection as asyncio's does: the second wait is given no
    task and raises. [__init__] fails with that exception, after the
    two waits and before the warning and the lookup for the node's own
    identifier. *)
Theorem bootstrap_without_peers_can_fail :
  task_result Scenario.fast_silence (PingTask alice) = VNone
  /\ DHTNode_init Scenario.fast_silence None None [alice] 20 None 5 5%Z (Some 600%Z) None
       "0.0.0.0" start
     = ({| clock_reads := 2; waits := 2;
           events := [NListen "0.0.0.0" 8000%N;
                      NMonotonic 100%Z;
                      NWait [PingTask alice] 5%Z FIRST_COMPLETED;
                      NMonotonic 101%Z;
                      NWait [] 4%Z ALL_COMPLETED] |},
        Raise (ValueError "Set of coroutines/Futures is empty."))
  /\ existsb is_warn
       (events (fst (DHTNode_init Scenario.fast_silence None None [alice] 20 None 5 5%Z
                       (Some 600%Z) None "0.0.0.0" start))) = false
  /\ filter is_lookup
       (events (fst (DHTNode_init Scenario.fast_silence None None [alice] 20 None 5 5%Z
                       (Some 600%Z) None "0.0.0.0" start))) = [].
Proof.
  repeat split; reflexivity.
Qed.

(** A table whose only bucket was last updated at time 0, refreshed at
    time 100 with a staleness timeout of 50: the bucket is stale, and
    the refresh stops at [random.randint] without any lookup. *)
Lemma refresh_stale_buckets_on_stale_bucket :
  refresh_stale_buckets nobody_answers
    {| node_id := 5%N; port := 8000%N; num_replicas := 20; staleness_timeout := Some 50%Z |}
    (Routing.empty_table 5%N 20 5 0%Z)
    start
  = ({| clock_reads := 1; waits := 0; events := [NMonotonic 100%Z] |},
     Raise (AttributeError "randint")).
Proof. reflexivity. Qed.

End NodeRuns.

(** * Further properties of the request protocol *)

Section HandlerFacts.

Context {RT Node : Type} {RTO : RoutingTableOps RT} {NO : NodeOps Node}.

(** rpc_find_node in closed form: the sender is recorded whatever
    happens next; a known target is answered alone, an unknown one by
    the entries of its nearest neighbours; a missing entry is a
    KeyError. *)
Lemma rpc_find_node_run sender sender_id key_node (w : world RT Node) :
  let rt := routing_table (self (recorded sender sender_id w)) in
  rpc_find_node sender sender_id key_node w =
  (recorded sender sender_id w,
   if contains rt key_node then
     match getitem rt key_node with
     | Some endpoint =>
         Ok (VTuple [VList [VTuple [VId key_node; VEndpoint endpoint]];
                     VId (id (node (self w)))])
     | None => Raise KeyError
     end
   else
     match neighbor_entries rt
             (get_nearest_neighbors rt key_node (num_neighbors (self w)) (Some sender_id)) with
     | Some neighbors => Ok (VTuple [VList neighbors; VStub "node_id"])
     | None => Raise KeyError
     end).
Proof.
  intros rt.
  unfold rpc_find_node, bind at 1 2, table_register_request_from, table_contains.
  fold (recorded sender sender_id w). fold rt.
  destruct (contains rt key_node).
  - unfold bind, table_getitem. fold rt.
    destruct (getitem rt key_node); reflexivity.
  - unfold bind at 1. unfold self_num_neighbors at 1.
    unfold bind at 1. unfold table_get_nearest_neighbors at 1.
    unfold bind at 1. rewrite for_each_entries. fold rt.
    replace (num_neighbors (self (recorded sender sender_id w)))
      with (num_neighbors (self w)) by reflexivity.
    destruct (neighbor_entries rt _); reflexivity.
Qed.

(** The world that a handler leaves behind when the node's store can be
    read. *)
Lemma handle_world (c : server_call) (w : world RT Node) :
  store_readable c w = true ->
  fst (handle c w) =
  match c with
  | OnPing sender sender_id | OnFindNode sender sender_id _ => recorded sender sender_id w
  | OnStore sender sender_id key v expiration_time =>
      record (EvNodeStore key v expiration_time)
        (with_node (fst (store (node (self w)) key v expiration_time))
                   (recorded sender sender_id w))
  | OnFindValue sender sender_id key => recorded sender sender_id (record (EvNodeGet key) w)
  end.
Proof.
  intros Hread. destruct c as [s i | s i key v t | s i key | s i key]; simpl.
  - reflexivity.
  - unfold rpc_store, bind, table_register_request_from, self_node_store. simpl.
    fold (recorded s i w).
    destruct (store (node (self w)) key v t) as [n accepted]. reflexivity.
  - rewrite rpc_find_node_run. reflexivity.
  - simpl in Hread.
    destruct (to_tuple (get (node (self w)) key)) as [found|e] eqn:Hfound; [|discriminate].
    rewrite (rpc_find_value_unfold s i key w found Hfound).
    rewrite rpc_find_node_run. simpl.
    destruct (if contains _ key then _ else _) as [v|e]; [destruct v|]; reflexivity.
Qed.

(** X1. A handler whose store can be read records the sender exactly
    once and does nothing else to the routing table: the table it leaves
    is register_request_from of the one it found, it sends no request
    and registers no outbound contact, and bucket_size and
    num_neighbors stay as they were. For rpc_find_node this holds also
    when the handler ends with KeyError. *)
Theorem handlers_record_the_sender_once (c : server_call) (w : world RT Node) :
  store_readable c w = true ->
  let w' := fst (handle c w) in
  routing_table (self w')
  = register_request_from (routing_table (self w)) (sender_of c) (sender_id_of c)
  /\ filter is_register_from (log w')
     = (filter is_register_from (log w) ++ [EvRegisterFrom (sender_of c) (sender_id_of c)])%list
  /\ filter is_send (log w') = filter is_send (log w)
  /\ filter is_register_to (log w') = filter is_register_to (log w)
  /\ bucket_size (self w') = bucket_size (self w)
  /\ num_neighbors (self w') = num_neighbors (self w).
Proof.
  intros Hread w'. subst w'. rewrite (handle_world c w Hread).
  destruct c as [s i | s i key v t | s i key | s i key]; simpl;
    rewrite ?filter_app; simpl; rewrite ?app_nil_r; repeat split; reflexivity.
Qed.

(** X2. When the store cannot be read (node.get returns something that
    is not iterable), rpc_find_value raises the TypeError of [tuple]
    before the sender is recorded: the routing table is untouched. *)
Theorem rpc_find_value_unreadable_store sender sender_id key (w : world RT Node) e :
  to_tuple (get (node (self w)) key) = Raise e ->
  rpc_find_value sender sender_id key w = (record (EvNodeGet key) w, Raise e).
Proof.
  intros Hfound. unfold rpc_find_value, bind, self_node_get, lift.
  rewrite Hfound. reflexivity.
Qed.

(** X3. Whatever the target, if the table holds it once the sender is
    recorded, rpc_find_node answers with that one entry and the node's
    own id; num_neighbors and the exclusion of the sender play no part. *)
Theorem rpc_find_node_known_target sender sender_id key_node endpoint (w : world RT Node) :
  contains (routing_table (self (recorded sender sender_id w))) key_node = true ->
  getitem (routing_table (self (recorded sender sender_id w))) key_node = Some endpoint ->
  snd (rpc_find_node sender sender_id key_node w)
  = Ok (VTuple [VList [VTuple [VId key_node; VEndpoint endpoint]]; VId (id (node (self w)))]).
Proof.
  intros Hin Hat. rewrite rpc_find_node_run. simpl. simpl in Hin, Hat.
  rewrite Hin, Hat. reflexivity.
Qed.

(** The entries of a list of identifiers name those identifiers, in
    order, each with the endpoint the table has for it. *)
Lemma neighbor_entries_some (rt : RT) (ids : list DHTID) (entries : list value) :
  neighbor_entries rt ids = Some entries ->
  Forall2 (fun i entry => exists endpoint,
             getitem rt i = Some endpoint /\ entry = VTuple [VId i; VEndpoint endpoint])
          ids entries.
Proof.
  revert entries. induction ids as [|i rest IH]; simpl; intros entries H.
  - injection H as <-. constructor.
  - destruct (getitem rt i) as [endpoint|] eqn:Hi; [|discriminate].
    destruct (neighbor_entries rt rest) as [tail|]; [|discriminate].
    injection H as <-. constructor; [exists endpoint; auto | apply IH; reflexivity].
Qed.

Lemma neighbor_entries_none (rt : RT) (ids : list DHTID) :
  neighbor_entries rt ids = None <-> exists i, In i ids /\ getitem rt i = None.
Proof.
  induction ids as [|i rest IH]; simpl.
  - split; [discriminate | intros (i & [] & _)].
  - destruct (getitem rt i) as [endpoint|] eqn:Hi.
    + destruct (neighbor_entries rt rest) as [tail|].
      * split; [discriminate|]. intros (j & [<-|Hj] & Hnone); [congruence|].
        destruct IH as [_ IH]. discriminate IH. now exists j.
      * split; [|reflexivity]. intros _.
        destruct IH as [IH _]. destruct (IH eq_refl) as (j & Hj & Hnone).
        exists j. auto.
    + split; [|reflexivity]. intros _. exists i. auto.
Qed.

(** X4. For a target that is not known, rpc_find_node answers with one
    entry per identifier that get_nearest_neighbors returned for
    (key_node, k = num_neighbors, exclude = sender_id), in the same
    order, each with its endpoint from the table. *)
Theorem rpc_find_node_lists_neighbors_in_order sender sender_id key_node
    (w : world RT Node) (answer : value) :
  let rt := routing_table (self (recorded sender sender_id w)) in
  let ids := get_nearest_neighbors rt key_node (num_neighbors (self w)) (Some sender_id) in
  contains rt key_node = false ->
  snd (rpc_find_node sender sender_id key_node w) = Ok answer ->
  exists entries second,
    answer = VTuple [VList entries; second]
    /\ Forall2 (fun i entry => exists endpoint,
                  getitem rt i = Some endpoint /\ entry = VTuple [VId i; VEndpoint endpoint])
               ids entries.
Proof.
  intros rt ids Hout Hanswer.
  pose proof (rpc_find_node_run sender sender_id key_node w) as Hrun.
  cbv zeta in Hrun.
  change (routing_table (self (recorded sender sender_id w))) with rt in Hrun.
  change (get_nearest_neighbors rt key_node (num_neighbors (self w)) (Some sender_id))
    with ids in Hrun.
  rewrite Hrun in Hanswer. unfold snd in Hanswer. rewrite Hout in Hanswer.
  destruct (neighbor_entries rt ids) as [entries|] eqn:Hentries; [|discriminate].
  injection Hanswer as <-.
  exists entries, (VStub "node_id"). split; [reflexivity|].
  now apply neighbor_entries_some.
Qed.

(** rpc_find_node ends with KeyError exactly when the table answers
    the membership test or the neighbour query with an identifier for
    which it has no entry; by then the sender is recorded. *)
Lemma rpc_find_node_key_error sender sender_id key_node (w : world RT Node) :
  let rt := routing_table (self (recorded sender sender_id w)) in
  let ids := get_nearest_neighbors rt key_node (num_neighbors (self w)) (Some sender_id) in
  snd (rpc_find_node sender sender_id key_node w) = Raise KeyError
  <-> (contains rt key_node = true /\ getitem rt key_node = None)
      \/ (contains rt key_node = false /\ exists i, In i ids /\ getitem rt i = None).
Proof.
  intros rt ids.
  pose proof (rpc_find_node_run sender sender_id key_node w) as Hrun.
  cbv zeta in Hrun.
  change (routing_table (self (recorded sender sender_id w))) with rt in Hrun.
  change (get_nearest_neighbors rt key_node (num_neighbors (self w)) (Some sender_id))
    with ids in Hrun.
  rewrite Hrun. unfold snd.
  destruct (contains rt key_node).
  - destruct (getitem rt key_node) as [endpoint|].
    + split; [discriminate|]. intros [[_ H]|[H _]]; discriminate.
    + split; [auto|reflexivity].
  - destruct (neighbor_entries rt ids) as [entries|] eqn:Hentries.
    + split; [discriminate|]. intros [[H _]|[_ H]]; [discriminate|].
      apply neighbor_entries_none in H. congruence.
    + split; [|reflexivity]. intros _. right. split; [reflexivity|].
      now apply neighbor_entries_none.
Qed.

(** X5. For a key that the table knows once the sender is recorded and
    a store that answers with a pair, rpc_find_value returns the
    4-tuple of that pair, the single entry of the key and the node's
    own id. *)
Theorem rpc_find_value_known_key sender sender_id key endpoint v expiration_time
    (w : world RT Node) :
  to_tuple (get (node (self w)) key) = Ok [v; expiration_time] ->
  contains (routing_table (self (recorded sender sender_id w))) key = true ->
  getitem (routing_table (self (recorded sender sender_id w))) key = Some endpoint ->
  snd (rpc_find_value sender sender_id key w)
  = Ok (VTuple [v; expiration_time; VList [VTuple [VId key; VEndpoint endpoint]];
                VId (id (node (self w)))]).
Proof.
  intros Hfound Hin Hat.
  rewrite (rpc_find_value_unfold sender sender_id key w [v; expiration_time] Hfound).
  rewrite rpc_find_node_run. simpl. simpl in Hin, Hat. rewrite Hin, Hat. reflexivity.
Qed.

End HandlerFacts.

Section CallerFacts.

Context {RT Node : Type} {RTO : RoutingTableOps RT} {NO : NodeOps Node}.

(** X9. What a handler returns always has the arity its caller
    unpacks: the reply of rpc_store and of rpc_find_node is a pair in
    either branch, and the reply of rpc_find_value has four components
    when the node's store answers with two. *)
Theorem handler_replies_fit_callers (c : client_call) (sender : Endpoint) (own : DHTID)
    (w : world RT Node) (payload : value) :
  match c with
  | FindValue _ key => exists v expiration_time,
                         to_tuple (get (node (self w)) key) = Ok [v; expiration_time]
  | _ => True
  end ->
  snd (handle (arriving sender own c) w) = Ok payload ->
  reply_fits c payload = true.
Proof.
  intros Hstore Hreply.
  destruct c as [r | r key v t | r key | r key]; simpl in *.
  - reflexivity.
  - unfold rpc_store, bind, table_register_request_from, self_node_store, self_node_id in Hreply.
    simpl in Hreply.
    destruct (store (node (self w)) key v t) as [n accepted].
    simpl in Hreply. injection Hreply as <-. reflexivity.
  - rewrite rpc_find_node_run in Hreply. simpl in Hreply.
    destruct (contains _ key).
    + destruct (getitem _ key); [|discriminate]. injection Hreply as <-. reflexivity.
    + destruct (neighbor_entries _ _); [|discriminate]. injection Hreply as <-. reflexivity.
  - destruct Hstore as (v & t & Hfound).
    rewrite (rpc_find_value_unfold sender own key w [v; t] Hfound) in Hreply.
    rewrite rpc_find_node_run in Hreply. simpl in Hreply.
    destruct (contains _ key).
    + destruct (getitem _ key); [|discriminate]. injection Hreply as <-. reflexivity.
    + destruct (neighbor_entries _ _); [|discriminate]. injection Hreply as <-. reflexivity.
Qed.

End CallerFacts.

(** * Further properties of the node orchestrator *)

Section BootstrapFacts.

Context {RT : Type} {RTO : RoutingTableOps RT}.

Variable env : Env.

(** X13. When the first wait raises, [__init__] raises the same
    exception right there: the clock was read once, nothing was
    cancelled, no warning was given and no lookup was run. *)
Theorem bootstrap_first_wait_fails node_id_arg port_arg initial_peers bucket_size
    num_replicas_arg depth_modulo wait_timeout staleness_timeout_arg bootstrap_timeout_arg
    interface e :
  asyncio_wait env 0 (map PingTask initial_peers) wait_timeout FIRST_COMPLETED = Raise e ->
  DHTNode_init env node_id_arg port_arg initial_peers bucket_size num_replicas_arg
    depth_modulo wait_timeout staleness_timeout_arg bootstrap_timeout_arg interface start
  = ({| clock_reads := 1; waits := 1;
        events :=
          [NListen interface
             (port (constructed env node_id_arg port_arg bucket_size num_replicas_arg
                      staleness_timeout_arg));
           NMonotonic (monotonic env 0);
           NWait (map PingTask initial_peers) wait_timeout FIRST_COMPLETED] |},
     Raise e).
Proof.
  intros H1. unfold DHTNode_init.
  unfold nbind at 1. unfold emit at 1. simpl.
  unfold nbind at 1. unfold time_monotonic at 1. simpl.
  unfold nbind at 1. unfold run_wait at 1. simpl. rewrite H1. reflexivity.
Qed.

(** X14. When the second wait raises, [__init__] raises the same
    exception: no ping is cancelled, finished or not, no warning is
    given and no lookup is run. *)
Theorem bootstrap_second_wait_fails node_id_arg port_arg initial_peers bucket_size
    num_replicas_arg depth_modulo wait_timeout staleness_timeout_arg bootstrap_timeout_arg
    interface first_finished remaining_tasks e :
  let bootstrap_timeout :=
    match bootstrap_timeout_arg with Some t => t | None => wait_timeout end in
  let elapsed := (monotonic env 1 - monotonic env 0)%Z in
  asyncio_wait env 0 (map PingTask initial_peers) wait_timeout FIRST_COMPLETED
    = Ok (first_finished, remaining_tasks) ->
  asyncio_wait env 1 remaining_tasks (bootstrap_timeout - elapsed)%Z ALL_COMPLETED
    = Raise e ->
  DHTNode_init env node_id_arg port_arg initial_peers bucket_size num_replicas_arg
    depth_modulo wait_timeout staleness_timeout_arg bootstrap_timeout_arg interface start
  = ({| clock_reads := 2; waits := 2;
        events :=
          [NListen interface
             (port (constructed env node_id_arg port_arg bucket_size num_replicas_arg
                      staleness_timeout_arg));
           NMonotonic (monotonic env 0);
           NWait (map PingTask initial_peers) wait_timeout FIRST_COMPLETED;
           NMonotonic (monotonic env 1);
           NWait remaining_tasks (bootstrap_timeout - elapsed)%Z ALL_COMPLETED] |},
     Raise e).
Proof.
  intros bootstrap_timeout elapsed H1 H2. unfold DHTNode_init.
  unfold nbind at 1. unfold emit at 1. simpl.
  unfold nbind at 1. unfold time_monotonic at 1. simpl.
  unfold nbind at 1. unfold run_wait at 1. simpl. rewrite H1.
  unfold nbind at 1. unfold time_monotonic at 1. simpl.
  unfold nbind at 1. unfold run_wait at 1. simpl.
  fold elapsed. fold bootstrap_timeout. rewrite H2. reflexivity.
Qed.

Lemma no_warning_among_cancels (stragglers : list task) :
  existsb is_warn (map NCancel stragglers) = false.
Proof.
  induction stragglers; simpl; auto.
Qed.

Lemma no_search_among_cancels (stragglers : list task) :
  filter is_beam_search (map NCancel stragglers) = [].
Proof.
  induction stragglers; simpl; auto.
Qed.

Lemma no_warning_in_lookup (query_id : DHTID) :
  existsb is_warn (lookup_events env query_id) = false.
Proof.
  unfold lookup_events. destruct (nearest_to_nothing env); reflexivity.
Qed.

(** No identifier among the results of the finished pings. *)
Lemma no_peer_ids (finished : list task) :
  Nat.eqb (List.length
             (map (task_result env)
                  (filter (fun t => negb (is_none (task_result env t))) finished))) 0
  = forallb (fun t => is_none (task_result env t)) finished.
Proof.
  induction finished as [|t rest IH]; simpl; [reflexivity|].
  destruct (is_none (task_result env t)); simpl; [exact IH | reflexivity].
Qed.

(** X15. When both waits return, [__init__] warns exactly when
    initial_peers is not empty and every ping that finished, in the
    first wait or in the second, has None as result; one finished ping
    with an id is enough for no warning, and the pings that were
    cancelled do not count. *)
Theorem bootstrap_warns_iff_nobody_responded node_id_arg port_arg initial_peers bucket_size
    num_replicas_arg depth_modulo wait_timeout staleness_timeout_arg bootstrap_timeout_arg
    interface first_finished remaining_tasks finished_in_time stragglers :
  let bootstrap_timeout :=
    match bootstrap_timeout_arg with Some t => t | None => wait_timeout end in
  let elapsed := (monotonic env 1 - monotonic env 0)%Z in
  asyncio_wait env 0 (map PingTask initial_peers) wait_timeout FIRST_COMPLETED
    = Ok (first_finished, remaining_tasks) ->
  asyncio_wait env 1 remaining_tasks (bootstrap_timeout - elapsed)%Z ALL_COMPLETED
    = Ok (finished_in_time, stragglers) ->
  existsb is_warn
    (events (fst (DHTNode_init env node_id_arg port_arg initial_peers bucket_size
                    num_replicas_arg depth_modulo wait_timeout staleness_timeout_arg
                    bootstrap_timeout_arg interface start)))
  = (negb (Nat.eqb (List.length initial_peers) 0)
     && forallb (fun t => is_none (task_result env t))
                (first_finished ++ finished_in_time))%bool.
Proof.
  intros bootstrap_timeout elapsed H1 H2.
  rewrite (DHTNode_init_run env node_id_arg port_arg initial_peers bucket_size
             num_replicas_arg depth_modulo wait_timeout staleness_timeout_arg
             bootstrap_timeout_arg interface
             first_finished remaining_tasks finished_in_time stragglers H1 H2).
  unfold fst, events.
  rewrite !existsb_app, no_warning_among_cancels, no_warning_in_lookup.
  unfold bootstrap_warning. rewrite no_peer_ids.
  destruct (forallb _ _); destruct (Nat.eqb _ 0); reflexivity.
Qed.

(** X16. When both waits return and the routing table refuses the
    call get_nearest_neighbors() that seeds the final lookup,
    [__init__] raises that exception and beam_search is never started. *)
Theorem bootstrap_fails_without_seed node_id_arg port_arg initial_peers bucket_size
    num_replicas_arg depth_modulo wait_timeout staleness_timeout_arg bootstrap_timeout_arg
    interface first_finished remaining_tasks finished_in_time stragglers e :
  let bootstrap_timeout :=
    match bootstrap_timeout_arg with Some t => t | None => wait_timeout end in
  let elapsed := (monotonic env 1 - monotonic env 0)%Z in
  let run := DHTNode_init env node_id_arg port_arg initial_peers bucket_size
               num_replicas_arg depth_modulo wait_timeout staleness_timeout_arg
               bootstrap_timeout_arg interface start in
  asyncio_wait env 0 (map PingTask initial_peers) wait_timeout FIRST_COMPLETED
    = Ok (first_finished, remaining_tasks) ->
  asyncio_wait env 1 remaining_tasks (bootstrap_timeout - elapsed)%Z ALL_COMPLETED
    = Ok (finished_in_time, stragglers) ->
  nearest_to_nothing env = Raise e ->
  snd run = Raise e /\ filter is_beam_search (events (fst run)) = [].
Proof.
  intros bootstrap_timeout elapsed run H1 H2 Hseed. subst run.
  rewrite (DHTNode_init_run env node_id_arg port_arg initial_peers bucket_size
             num_replicas_arg depth_modulo wait_timeout staleness_timeout_arg
             bootstrap_timeout_arg interface
             first_finished remaining_tasks finished_in_time stragglers H1 H2).
  unfold fst, snd, events, lookup_result, lookup_events. rewrite Hseed.
  split; [reflexivity|].
  rewrite !filter_app, no_search_among_cancels.
  unfold bootstrap_warning. destruct (_ && _)%bool; reflexivity.
Qed.

(** X17. How refresh_stale_buckets ends: with the TypeError of the
    subtraction when staleness_timeout is None; otherwise with the
    AttributeError of [random.randint] when some bucket has
    last_updated below the clock reading minus staleness_timeout, and
    with NotImplementedError when no bucket has. In each case the clock
    was read once and nothing else was done. *)
Theorem refresh_stale_buckets_exception (self : DHTNode) (routing_table : RT)
    (s : run_state) :
  let now := monotonic env (clock_reads s) in
  refresh_stale_buckets env self routing_table s
  = ({| clock_reads := S (clock_reads s); waits := waits s;
        events := events s ++ [NMonotonic now] |},
     Raise (match staleness_timeout self with
            | None => TypeError "unsupported operand type(s) for -: 'float' and 'NoneType'"
            | Some timeout =>
                if existsb (fun bucket => (last_updated bucket <? now - timeout)%Z)
                           (buckets routing_table)
                then AttributeError "randint"
                else NotImplementedError "TODO"
            end)).
Proof.
  intros now. unfold refresh_stale_buckets.
  unfold nbind at 1. unfold time_monotonic. fold now.
  destruct (staleness_timeout self) as [timeout|]; [|reflexivity].
  unfold nbind at 1. unfold nret at 1.
  unfold nbind. rewrite ncollect_randint.
  assert (Hstale : forall l : list KBucket,
            match filter (fun bucket => (last_updated bucket <? now - timeout)%Z) l with
            | [] => false | _ :: _ => true end
            = existsb (fun bucket => (last_updated bucket <? now - timeout)%Z) l).
  { induction l as [|b rest IH]; simpl; [reflexivity|].
    destruct (last_updated b <? now - timeout)%Z; simpl; [reflexivity | exact IH]. }
  rewrite <- Hstale.
  destruct (filter _ (buckets routing_table)); reflexivity.
Qed.

End BootstrapFacts.

(** * The further properties on concrete nodes and event loops *)

Section MoreRuns.

Import Routing LocalStore Example Scenario.

(** rpc_find_value for key 4 from the peer 6 at [dave]. *)
Lemma handlers_record_the_sender_once_witness :
  routing_table (self (fst (handle (OnFindValue dave 6%N 4%N) populated)))
  = register_request_from (routing_table (self populated)) dave 6%N.
Proof.
  refine (proj1 (handlers_record_the_sender_once (OnFindValue dave 6%N 4%N) populated _)).
  reflexivity.
Defined.

(** A node whose [get] returns a coroutine. *)
Lemma rpc_find_value_unreadable_store_witness :
  rpc_find_value dave 6%N 4%N opaque_world
  = (record (EvNodeGet 4%N) opaque_world, Raise (TypeError "object is not iterable")).
Proof.
  refine (rpc_find_value_unreadable_store dave 6%N 4%N opaque_world _ _). reflexivity.
Defined.

(** The peer 6 asks for the identifier 7, which the table holds. *)
Lemma rpc_find_node_known_target_witness :
  snd (rpc_find_node dave 6%N 7%N populated)
  = Ok (VTuple [VList [VTuple [VId 7%N; VEndpoint bob]]; VId 5%N]).
Proof.
  refine (rpc_find_node_known_target dave 6%N 7%N bob populated _ _); reflexivity.
Defined.

(** The peer 6 asks for the identifier 4, which the table does not hold. *)
Lemma rpc_find_node_lists_neighbors_in_order_witness :
  exists entries second,
    VTuple [VList [VTuple [VId 7%N; VEndpoint bob]; VTuple [VId 1%N; VEndpoint alice]];
            VStub "node_id"]
    = VTuple [VList entries; second]
    /\ Forall2 (fun i entry => exists endpoint,
                  getitem (routing_table (self (recorded dave 6%N populated))) i
                  = Some endpoint
                  /\ entry = VTuple [VId i; VEndpoint endpoint])
               [7%N; 1%N] entries.
Proof.
  refine (rpc_find_node_lists_neighbors_in_order dave 6%N 4%N populated _ _ _);
    reflexivity.
Defined.

(** The peer 4 at [dave] asks for the key 4, of which the node holds a
    live record. *)
Lemma rpc_find_value_known_key_witness :
  snd (rpc_find_value dave 4%N 4%N populated)
  = Ok (VTuple [VBytes "v"; VTime 100%Z; VList [VTuple [VId 4%N; VEndpoint dave]]; VId 5%N]).
Proof.
  refine (rpc_find_value_known_key dave 4%N 4%N dave (VBytes "v") (VTime 100%Z)
            populated _ _ _); reflexivity.
Defined.

(** The reply of rpc_find_value to the peer 6 for the key 4, from the
    nearest-neighbours branch. *)
Lemma handler_replies_fit_callers_witness :
  reply_fits (FindValue bob 4%N)
    (VTuple [VBytes "v"; VTime 100%Z;
             VList [VTuple [VId 7%N; VEndpoint bob]; VTuple [VId 1%N; VEndpoint alice]];
             VStub "node_id"])
  = true.
Proof.
  refine (handler_replies_fit_callers (FindValue bob 4%N) dave 6%N populated _ _ _).
  - exists (VBytes "v"), (VTime 100%Z). reflexivity.
  - reflexivity.
Defined.

(** No initial peers, on a loop that refuses to wait for nothing. *)
Lemma bootstrap_first_wait_fails_witness :
  snd (DHTNode_init strict_loop None None [] 20 None 5 5%Z (Some 600%Z) None "0.0.0.0" start)
  = Raise (ValueError "Set of coroutines/Futures is empty.").
Proof.
  refine (f_equal snd
            (bootstrap_first_wait_fails strict_loop None None [] 20 None 5 5%Z (Some 600%Z)
               None "0.0.0.0" (ValueError "Set of coroutines/Futures is empty.") _)).
  reflexivity.
Defined.

(** One initial peer, whose ping is finished when the first wait
    returns, on the same loop. *)
Lemma bootstrap_second_wait_fails_witness :
  snd (DHTNode_init strict_loop None None [bob] 20 None 5 5%Z (Some 600%Z) None "0.0.0.0"
         start)
  = Raise (ValueError "Set of coroutines/Futures is empty.").
Proof.
  refine (f_equal snd
            (bootstrap_second_wait_fails strict_loop None None [bob] 20 None 5 5%Z
               (Some 600%Z) None "0.0.0.0" [PingTask bob] []
               (ValueError "Set of coroutines/Futures is empty.") _ _)); reflexivity.
Defined.

(** Three peers of which the first answers: no warning. *)
Lemma bootstrap_warns_iff_nobody_responded_witness :
  existsb is_warn
    (events (fst (DHTNode_init first_answers None None [alice; bob; carol] 20 None 5 5%Z
                    (Some 600%Z) None "0.0.0.0" start)))
  = false.
Proof.
  refine (bootstrap_warns_iff_nobody_responded first_answers None None [alice; bob; carol]
            20 None 5 5%Z (Some 600%Z) None "0.0.0.0"
            [PingTask alice] [PingTask bob; PingTask carol]
            [] [PingTask bob; PingTask carol] _ _); reflexivity.
Defined.

(** One peer that never answers, and a table that wants arguments. *)
Lemma bootstrap_fails_without_seed_witness :
  snd (DHTNode_init no_seed None None [alice] 20 None 5 5%Z (Some 600%Z) None "0.0.0.0" start)
  = Raise (TypeError "missing 1 required positional argument").
Proof.
  refine (proj1 (bootstrap_fails_without_seed no_seed None None [alice] 20 None 5 5%Z
                   (Some 600%Z) None "0.0.0.0" [] [PingTask alice] [PingTask alice] []
                   (TypeError "missing 1 required positional argument") _ _ _)); reflexivity.
Defined.

End MoreRuns.
